(** * Orthomosaic processing gateway: api.py and sb_connect.py

    A shallow embedding of the two Python modules of the repository:

    - [sb_connect.py], the storage gateway ([baixar_arquivo], [enviar_arquivo],
      [listar_arquivos], [excluir_arquivo]);
    - [api.py], the webhook notifier ([enviar_webhook]), the background
      orchestrator ([executar_processamento_background]) and the HTTP routes
      ([iniciar_processamento], [verificar_status]).

    Python code that logs, talks to the network and raises is modelled in a
    small monad [M]: a computation yields an outcome (a value or a raised
    exception) together with the list of effects it performed, in order.
    Whatever the program cannot decide by itself (environment variables, the
    HTTP response of the webhook endpoint, the storage backend, the file
    system, the processing function of [main.py]) is read from a record of
    oracles, so every theorem quantifies over all their behaviours. *)

From Stdlib Require Import ZArith String Ascii List DecimalString Lia.
From stdpp Require Import gmap strings list fin_maps.

Open Scope string_scope.
Open Scope list_scope.

(** ** Python values, exceptions and effects *)

Module Py.

(** Exceptions that [except Exception] handles. [PyExc cls text] is an
    instance of class [cls] whose [str(e)] is [text]; FastAPI's
    [HTTPException] carries a status code and a detail. *)
Inductive exn : Type :=
| PyExc (cls : string) (text : string)
| HTTPException (status_code : Z) (detail : string).

Definition ValueError (msg : string) : exn := PyExc "ValueError" msg.
Definition FileNotFoundError (msg : string) : exn := PyExc "FileNotFoundError" msg.
Definition IndexError (msg : string) : exn := PyExc "IndexError" msg.

(** [str(n)] for a Python int. *)
Definition str_int (z : Z) : string := NilZero.string_of_int (Z.to_int z).

(** [str(e)]. For [HTTPException] this is Starlette's
    [f"{self.status_code}: {self.detail}"]. *)
Definition str_exn (e : exn) : string :=
  match e with
  | PyExc _ text => text
  | HTTPException code detail => str_int code +:+ ": " +:+ detail
  end.

(** The values [processar_ortomosaico] may hand back. *)
Inductive pyval : Type :=
| PyNone
| PyBool (b : bool)
| PyStr (s : string).

Definition str_val (v : pyval) : string :=
  match v with
  | PyNone => "None"
  | PyBool true => "True"
  | PyBool false => "False"
  | PyStr s => s
  end.

(** Truthiness, as [if x:] and [not x] see it. *)
Definition truthy_str (s : string) : bool :=
  match s with
  | EmptyString => false
  | String _ _ => true
  end.

Definition truthy (o : option string) : bool :=
  match o with
  | Some s => truthy_str s
  | None => false
  end.

Definition truthy_val (v : pyval) : bool :=
  match v with
  | PyNone => false
  | PyBool b => b
  | PyStr s => truthy_str s
  end.

Inductive level : Type := DEBUG | INFO | WARNING | ERROR.

(** Observable effects, recorded in program order. [Notify] and
    [CallProcessar] record a call of a collaborator at its call site;
    the others are the calls that leave the process. *)
Inductive event : Type :=
| Log (l : level) (msg : string)
| Notify (id_projeto id_talhao status : string) (mensagem : option string)
| HttpPost (url : string) (json : gmap string string) (headers : gmap string string)
| CallProcessar (id_projeto id_talhao : string)
| AddTask (id_projeto id_talhao : string)
| MkdirParent (path : string)
| OpenFile (path : string) (mode : string)
| WriteFile (path : string) (data : list Byte.byte)
| StorageDownload (bucket key : string)
| StorageUpload (bucket key : string) (path : string) (options : gmap string string)
| StorageGetPublicUrl (bucket key : string)
| StorageList (bucket : string)
| StorageRemove (bucket : string) (keys : list string).

Inductive result (A : Type) : Type :=
| Ok (a : A)
| Raise (e : exn).
Arguments Ok {A} a.
Arguments Raise {A} e.

(** A computation: how it ended and what it did. *)
Record M (A : Type) : Type := Run { outcome : result A; trace : list event }.
Arguments Run {A} outcome trace.
Arguments outcome {A} m.
Arguments trace {A} m.

Definition ret {A} (a : A) : M A := Run (Ok a) [].

(** Sequencing: the continuation runs only after a normal return, and its
    effects follow those of [m]. *)
Definition bind {A B} (m : M A) (f : A -> M B) : M B :=
  match m with
  | Run (Ok a) t => match f a with Run r t' => Run r (t ++ t') end
  | Run (Raise e) t => Run (Raise e) t
  end.

Definition raise {A} (e : exn) : M A := Run (Raise e) [].

(** [try: m  except Exception as e: h e]. *)
Definition try_except {A} (m : M A) (h : exn -> M A) : M A :=
  match m with
  | Run (Ok a) t => Run (Ok a) t
  | Run (Raise e) t => match h e with Run r t' => Run r (t ++ t') end
  end.

(** Perform one effect whose result the outside world decides. *)
Definition call {A} (ev : event) (r : result A) : M A := Run r [ev].

Definition emit (ev : event) : M unit := call ev (Ok tt).

(** A question put to the outside world that leaves nothing behind: the
    computation ends as the answer does. *)
Definition answer {A} (r : result A) : M A := Run r [].

(** The result of a call that returns nothing: [None] when it went through,
    [Some e] when it raised [e]. *)
Definition raised (o : option exn) : result unit :=
  match o with
  | None => Ok tt
  | Some e => Raise e
  end.

Definition log (l : level) (msg : string) : M unit := emit (Log l msg).

(** [l[i]], raising [IndexError] out of range. *)
Definition index (l : list string) (i : nat) : M string :=
  match l !! i with
  | Some x => ret x
  | None => raise (IndexError "list index out of range")
  end.

(** [s.split(sep, 1)] for a one-character separator: cut at the first
    occurrence of [sep], or the whole string when there is none. *)
Fixpoint cut (sep : ascii) (s : string) : option (string * string) :=
  match s with
  | EmptyString => None
  | String c s' =>
      if Ascii.eqb c sep then Some (EmptyString, s')
      else match cut sep s' with
           | Some (before, after) => Some (String c before, after)
           | None => None
           end
  end.

Definition split1 (sep : ascii) (s : string) : list string :=
  match cut sep s with
  | Some (before, after) => [before; after]
  | None => [s]
  end.

End Py.

Import Py.

#[global] Instance M_ret : MRet M := @ret.
#[global] Instance M_bind : MBind M := fun A B f m => bind m f.

(** ** sb_connect.py *)

Module SbConnect.

(** The Supabase client and the local file system, as seen from the
    gateway. [None] in an [option exn] means the call went through. *)
Record Client : Type := {
  fs_mkdir_parent : string -> option exn;
  fs_open : string -> string -> option exn;
  fs_write : string -> list Byte.byte -> option exn;
  (** [Path(p).exists()]: [True], [False], or the [OSError] of a path that
      cannot be looked up (name too long, directory not searchable) *)
  fs_exists : string -> result bool;
  storage_download : string -> string -> result (list Byte.byte);
  (** the response's [status_code] attribute, when it has one *)
  storage_upload : string -> string -> string -> gmap string string -> result (option Z);
  storage_get_public_url : string -> string -> result string;
  storage_list : string -> result (list string);
  storage_remove : string -> list string -> option exn
}.

Definition upload_options : gmap string string :=
  <["upsert" := "true"]> (<["content-type" := "application/octet-stream"]> ∅).

Definition baixar_arquivo (client : Client) (caminho_bucket caminho_local : string)
  : M string :=
  try_except
    (let partes := split1 "/" caminho_bucket in
     bucket ← index partes 0;
     caminho_arquivo ← (if decide (1 < length partes) then index partes 1 else ret "");
     log INFO ("Baixando arquivo " +:+ caminho_arquivo +:+ " do bucket " +:+ bucket);;
     call (MkdirParent caminho_local) (raised (fs_mkdir_parent client caminho_local));;
     response ← call (StorageDownload bucket caminho_arquivo)
                     (storage_download client bucket caminho_arquivo);
     call (OpenFile caminho_local "wb") (raised (fs_open client caminho_local "wb"));;
     call (WriteFile caminho_local response) (raised (fs_write client caminho_local response));;
     log INFO ("Arquivo baixado com sucesso para " +:+ caminho_local);;
     mret caminho_local)
    (fun e =>
       log ERROR ("Erro ao baixar arquivo " +:+ caminho_bucket +:+ ": " +:+ str_exn e);;
       raise e).

Definition str_status (response : option Z) : string :=
  match response with
  | Some code => str_int code
  | None => "N/A"
  end.

Definition enviar_arquivo (client : Client) (caminho_local caminho_bucket : string)
  : M (option string) :=
  try_except
    (let partes := split1 "/" caminho_bucket in
     bucket ← index partes 0;
     caminho_arquivo ← (if decide (1 < length partes) then index partes 1 else ret "");
     log INFO ("Enviando arquivo " +:+ caminho_local +:+ " para " +:+ bucket +:+ "/"
               +:+ caminho_arquivo);;
     existe ← answer (fs_exists client caminho_local);
     (if existe : bool then mret tt
      else raise (FileNotFoundError ("Arquivo " +:+ caminho_local +:+ " não encontrado")));;
     call (OpenFile caminho_local "rb") (raised (fs_open client caminho_local "rb"));;
     log DEBUG ("Iniciando a chamada client.storage.from_('" +:+ bucket +:+ "').upload('"
                +:+ caminho_arquivo +:+ "') com upsert=true (streaming)...");;
     response ← call (StorageUpload bucket caminho_arquivo caminho_local upload_options)
                     (storage_upload client bucket caminho_arquivo caminho_local
                        upload_options);
     log DEBUG ("Chamada de upload concluída. Status da resposta: "
                +:+ str_status response);;
     log INFO ("Arquivo enviado com sucesso para " +:+ caminho_bucket);;
     log DEBUG ("Tentando obter URL pública para " +:+ caminho_bucket +:+ "...");;
     try_except
       (url ← call (StorageGetPublicUrl bucket caminho_arquivo)
                   (storage_get_public_url client bucket caminho_arquivo);
        log DEBUG ("URL pública obtida: " +:+ url);;
        mret (Some url))
       (fun url_error =>
          log WARNING ("Não foi possível obter URL pública para " +:+ caminho_bucket
                       +:+ ": " +:+ str_exn url_error);;
          mret None))
    (fun e =>
       log ERROR ("Erro ao enviar arquivo " +:+ caminho_local +:+ " para "
                  +:+ caminho_bucket +:+ ": " +:+ str_exn e);;
       raise e).

Definition listar_arquivos (client : Client) (bucket : string) : M (list string) :=
  try_except
    (log INFO ("Listando arquivos no bucket " +:+ bucket);;
     response ← call (StorageList bucket) (storage_list client bucket);
     mret response)
    (fun e =>
       log ERROR ("Erro ao listar arquivos no bucket " +:+ bucket +:+ ": " +:+ str_exn e);;
       raise e).

Definition excluir_arquivo (client : Client) (caminho_bucket : string) : M bool :=
  try_except
    (let partes := split1 "/" caminho_bucket in
     bucket ← index partes 0;
     caminho_arquivo ← (if decide (1 < length partes) then index partes 1 else ret "");
     log INFO ("Excluindo arquivo " +:+ caminho_arquivo +:+ " do bucket " +:+ bucket);;
     call (StorageRemove bucket [caminho_arquivo])
          (raised (storage_remove client bucket [caminho_arquivo]));;
     log INFO ("Arquivo " +:+ caminho_bucket +:+ " excluído com sucesso");;
     mret true)
    (fun e =>
       log ERROR ("Erro ao excluir arquivo " +:+ caminho_bucket +:+ ": " +:+ str_exn e);;
       raise e).

End SbConnect.

(** ** api.py *)

Module Api.

Record Response : Type := { status_code : Z; text : string }.

(** What the module reads from its surroundings: the process environment,
    the webhook endpoint behind [requests.post], the processing function
    imported from [main.py] and FastAPI's [BackgroundTasks.add_task]. *)
Record Env : Type := {
  getenv : string -> option string;
  requests_post : string -> gmap string string -> gmap string string -> result Response;
  processar_ortomosaico : string -> string -> result pyval;
  add_task : string -> string -> option exn
}.

Record ProcessamentoRequest : Type := { id_projeto : string; id_talhao : string }.

Record ProcessamentoResponse : Type := {
  resp_id_projeto : string;
  resp_id_talhao : string;
  resp_status : string;
  resp_mensagem : option string
}.

Definition json_headers : gmap string string :=
  <["Content-Type" := "application/json"]> ∅.

(** The dictionary built at lines 72-79: three fixed keys, and
    ["mensagem"] only under [if mensagem:]. *)
Definition webhook_payload (id_projeto id_talhao status : string)
    (mensagem : option string) : gmap string string :=
  let payload :=
    <["status" := status]> (<["id_talhao" := id_talhao]>
      (<["id_projeto" := id_projeto]> ∅)) in
  if truthy mensagem then <["mensagem" := default "" mensagem]> payload else payload.

Definition enviar_webhook (env : Env) (id_projeto id_talhao status : string)
    (mensagem : option string) : M unit :=
  let webhook_url := getenv env "WEBHOOK_URL" in
  if negb (truthy webhook_url) then
    log WARNING "URL de webhook não configurada. Notificação não enviada."
  else
    let url := default "" webhook_url in
    let payload := webhook_payload id_projeto id_talhao status mensagem in
    try_except
      (response ← call (HttpPost url payload json_headers)
                       (requests_post env url payload json_headers);
       if ((200 <=? status_code response) && (status_code response <? 300))%Z
       then log INFO ("Webhook enviado com sucesso: " +:+ status)
       else log ERROR ("Falha ao enviar webhook: " +:+ str_int (status_code response)
                       +:+ " - " +:+ text response))
      (fun e => log ERROR ("Erro ao enviar webhook: " +:+ str_exn e)).

Definition configurado (v : option string) : string :=
  if truthy v then "configurado" else "não configurado".

Section Orchestrator.

(** The orchestrator is written against the notifier it calls; the program
    runs it with [enviar_webhook]. *)
Variable env : Env.
Variable notifier : string -> string -> string -> option string -> M unit.

Definition notify (id_projeto id_talhao status : string) (mensagem : option string)
  : M unit :=
  emit (Notify id_projeto id_talhao status mensagem);;
  notifier id_projeto id_talhao status mensagem.

Definition executar_processamento_background_with (id_projeto id_talhao : string)
  : M unit :=
  log INFO ("Iniciando processamento em background para projeto " +:+ id_projeto
            +:+ ", talhão " +:+ id_talhao);;
  try_except
    (let supabase_url := getenv env "SUPABASE_URL" in
     let supabase_key := getenv env "SUPABASE_KEY" in
     let webhook_url := getenv env "WEBHOOK_URL" in
     log INFO ("Configurações: SUPABASE_URL=" +:+ configurado supabase_url
               +:+ ", SUPABASE_KEY=" +:+ configurado supabase_key
               +:+ ", WEBHOOK_URL=" +:+ configurado webhook_url);;
     (if negb (forallb truthy [supabase_url; supabase_key])
      then raise (ValueError "Credenciais do Supabase não configuradas")
      else mret tt);;
     log INFO "Enviando webhook de início";;
     notify id_projeto id_talhao "iniciado" None;;
     log INFO "Iniciando função de processamento";;
     sucesso ← call (CallProcessar id_projeto id_talhao)
                    (processar_ortomosaico env id_projeto id_talhao);
     log INFO ("Processamento concluído com sucesso: " +:+ str_val sucesso))
    (fun e =>
       log ERROR ("Erro no processamento background: " +:+ str_exn e);;
       try_except
         (notify id_projeto id_talhao "erro" (Some (str_exn e)))
         (fun webhook_error =>
            log ERROR ("Erro ao enviar webhook de erro: " +:+ str_exn webhook_error));;
       raise e).

End Orchestrator.

Definition executar_processamento_background (env : Env) (id_projeto id_talhao : string)
  : M unit :=
  executar_processamento_background_with env (enviar_webhook env) id_projeto id_talhao.

Definition iniciar_processamento (env : Env) (request : ProcessamentoRequest)
  : M ProcessamentoResponse :=
  try_except
    ((if negb (truthy_str (id_projeto request)) || negb (truthy_str (id_talhao request))
      then raise (HTTPException 400 "ID de projeto e talhão são obrigatórios")
      else mret tt);;
     call (AddTask (id_projeto request) (id_talhao request))
          (raised (add_task env (id_projeto request) (id_talhao request)));;
     mret {| resp_id_projeto := id_projeto request;
             resp_id_talhao := id_talhao request;
             resp_status := "iniciado";
             resp_mensagem := Some "Processamento iniciado com sucesso" |})
    (fun e =>
       log ERROR ("Erro ao iniciar processamento: " +:+ str_exn e);;
       raise (HTTPException 500 (str_exn e))).

Record StatusSnapshot : Type := {
  snap_id_projeto : string;
  snap_status : string;
  snap_mensagem : string
}.

Definition verificar_status (id_projeto : string) : StatusSnapshot :=
  {| snap_id_projeto := id_projeto;
     snap_status := "em_processamento";
     snap_mensagem := "Verificação de status real não implementada nesta versão" |}.

End Api.

Import SbConnect Api.

(** ** Reading a trace *)

(** What the three parsing operations compute in their first three lines:
    [partes[0]] and [partes[1] if len(partes) > 1 else ""]. *)
Definition locator (caminho_bucket : string) : string * string :=
  match cut "/" caminho_bucket with
  | Some (bucket, caminho_arquivo) => (bucket, caminho_arquivo)
  | None => (caminho_bucket, "")
  end.

Definition has_char (c : ascii) (s : string) : Prop := In c (list_ascii_of_string s).

(** The locator rule in the words of the specification: [bucket] is the part
    before the first ["/"], [key] all that follows it; without a ["/"] the
    whole string is the bucket and the key is empty. *)
Definition split_on_first_slash (s bucket key : string) : Prop :=
  ~ has_char "/" bucket /\
  (s = bucket +:+ "/" +:+ key \/ (s = bucket /\ key = "")).

(** The objects a storage call addresses, as (bucket, key) pairs. *)
Definition targets (ev : event) : list (string * string) :=
  match ev with
  | StorageDownload bucket key => [(bucket, key)]
  | StorageUpload bucket key _ _ => [(bucket, key)]
  | StorageGetPublicUrl bucket key => [(bucket, key)]
  | StorageRemove bucket keys => map (pair bucket) keys
  | _ => []
  end.

Definition addressed (tr : list event) : list (string * string) := flat_map targets tr.

Definition is_network (ev : event) : bool :=
  match ev with
  | HttpPost _ _ _ | StorageDownload _ _ | StorageUpload _ _ _ _
  | StorageGetPublicUrl _ _ | StorageList _ | StorageRemove _ _ => true
  | _ => false
  end.

Definition network_calls (tr : list event) : list event := List.filter is_network tr.

Definition is_removal (ev : event) : bool :=
  match ev with
  | StorageRemove _ _ => true
  | _ => false
  end.

(** The notifications the orchestrator hands to its notifier, as
    (status, message) pairs, and their statuses. *)
Definition notified (tr : list event) : list (string * option string) :=
  flat_map (fun ev => match ev with
                      | Notify _ _ status mensagem => [(status, mensagem)]
                      | _ => []
                      end) tr.

Definition statuses (tr : list event) : list string := map fst (notified tr).

(** The JSON bodies that went out over HTTP, and the ["status"] of each. *)
Definition posted (tr : list event) : list (gmap string string) :=
  flat_map (fun ev => match ev with
                      | HttpPost _ json _ => [json]
                      | _ => []
                      end) tr.

Definition posted_statuses (tr : list event) : list (option string) :=
  map (fun json : gmap string string => json !! "status") (posted tr).



Definition credentials_present (env : Env) : bool :=
  truthy (getenv env "SUPABASE_URL") && truthy (getenv env "SUPABASE_KEY").

(** ** Sample surroundings *)

Module Sample.

Definition environ (webhook_url supabase_url supabase_key : option string)
  : string -> option string :=
  fun name =>
    if String.eqb name "WEBHOOK_URL" then webhook_url
    else if String.eqb name "SUPABASE_URL" then supabase_url
    else if String.eqb name "SUPABASE_KEY" then supabase_key
    else None.

Definition accepted : result Response := Ok {| status_code := 200; text := "ok" |}.

(** A deployment with every variable set and a webhook endpoint that
    answers 200, around a given behaviour of [processar_ortomosaico]. *)
Definition configured (processing : result pyval) : Env :=
  {| getenv := environ (Some "https://hooks.test/status") (Some "https://db.test")
                 (Some "service-key");
     requests_post := fun _ _ _ => accepted;
     processar_ortomosaico := fun _ _ => processing;
     add_task := fun _ _ => None |}.

(** The same without [SUPABASE_KEY]. *)
Definition without_key (processing : result pyval) : Env :=
  {| getenv := environ (Some "https://hooks.test/status") (Some "https://db.test") None;
     requests_post := fun _ _ _ => accepted;
     processar_ortomosaico := fun _ _ => processing;
     add_task := fun _ _ => None |}.

(** A webhook endpoint that answers 503. *)
Definition endpoint_down : Env :=
  {| getenv := environ (Some "https://hooks.test/status") (Some "https://db.test")
                 (Some "service-key");
     requests_post := fun _ _ _ => Ok {| status_code := 503; text := "unavailable" |};
     processar_ortomosaico := fun _ _ => Ok (PyBool true);
     add_task := fun _ _ => None |}.

(** A notifier that fails whenever it is asked to report an error. *)
Definition broken_notifier (id_projeto id_talhao status : string)
    (mensagem : option string) : M unit :=
  if String.eqb status "erro" then raise (PyExc "ConnectionError" "endpoint unreachable")
  else ret tt.

(** A storage backend that stores everything but cannot build public URLs,
    over a file system where only ["/data/ortho.tif"] exists. *)
Definition storage : Client :=
  {| fs_mkdir_parent := fun _ => None;
     fs_open := fun _ _ => None;
     fs_write := fun _ _ => None;
     fs_exists := fun path => Ok (String.eqb path "/data/ortho.tif");
     storage_download := fun _ _ => Ok [];
     storage_upload := fun _ _ _ _ => Ok (Some 200%Z);
     storage_get_public_url := fun _ _ => Raise (PyExc "StorageException" "no public url");
     storage_list := fun _ => Ok [];
     storage_remove := fun _ _ => None |}.

End Sample.

(** ** sb_connect.py: the connection *)

Module Connect.

(** [conectar] reads the process environment, may fill it from the [.env]
    file, and asks the Supabase library for a client. *)
Inductive step : Type :=
| LoadDotenv
| CreateClient (url key : string) (storage_client_timeout : Z)
| Logged (l : level) (msg : string).

(** [environ] is what [os.getenv] answers on entry, [environ_after_dotenv]
    what it answers once [load_dotenv()] has run, and [create_client] the
    answer of [supabase.create_client] for a URL, a key and the storage
    timeout of the options. *)
Record Sys : Type := {
  environ : string -> option string;
  environ_after_dotenv : string -> option string;
  create_client : string -> string -> Z -> result Client
}.

Definition conectar (sys : Sys) : result Client * list step :=
  let reload := negb (truthy (environ sys "SUPABASE_URL")) in
  let getenv := if reload then environ_after_dotenv sys else environ sys in
  let loaded := if reload then [LoadDotenv] else [] in
  let url := getenv "SUPABASE_URL" in
  let key := getenv "SUPABASE_KEY" in
  if negb (truthy url) || negb (truthy key) then
    (Raise (ValueError "Credenciais do Supabase não configuradas no arquivo .env"), loaded)
  else
    let attempt := CreateClient (default "" url) (default "" key) 300 in
    match create_client sys (default "" url) (default "" key) 300 with
    | Ok client =>
        (Ok client,
         loaded ++ [attempt;
                    Logged INFO "Conexão com Supabase estabelecida com sucesso (timeout de storage aumentado)"])
    | Raise e =>
        (Raise e,
         loaded ++ [attempt;
                    Logged ERROR ("Erro ao conectar com Supabase: " +:+ str_exn e)])
    end.

Definition is_attempt (s : step) : bool :=
  match s with
  | CreateClient _ _ _ => true
  | _ => false
  end.

End Connect.

(** ** Reading a trace, continued *)

Definition is_error_log (ev : event) : bool :=
  match ev with
  | Log ERROR _ => true
  | _ => false
  end.

Definition error_lines (tr : list event) : list event := List.filter is_error_log tr.

Definition is_processing (ev : event) : bool :=
  match ev with
  | CallProcessar _ _ => true
  | _ => false
  end.

Definition processing_calls (tr : list event) : list event := List.filter is_processing tr.

Definition is_log (ev : event) : bool :=
  match ev with
  | Log _ _ => true
  | _ => false
  end.

(** Effects on the local file system that create or change something. *)
Definition touches_destination (ev : event) : bool :=
  match ev with
  | OpenFile _ _ | WriteFile _ _ => true
  | _ => false
  end.

(** A webhook of status ["erro"] with message [m] went out: some body
    posted holds ["erro"] under ["status"] and [m] under ["mensagem"]. *)
Definition emits_failure_webhook (tr : list event) (m : string) : Prop :=
  exists json, In json (posted tr) /\
               json !! "status" = Some "erro" /\ json !! "mensagem" = Some m.

(** The same surroundings with another webhook endpoint. *)
Definition with_requests_post (env : Env)
    (post : string -> gmap string string -> gmap string string -> result Response) : Env :=
  {| getenv := getenv env;
     requests_post := post;
     processar_ortomosaico := processar_ortomosaico env;
     add_task := add_task env |}.

(** ** More sample surroundings *)

Module Scenario.

(** A storage backend that refuses every call, over a file system where
    every path exists. *)
Definition offline : Client :=
  {| fs_mkdir_parent := fun _ => None;
     fs_open := fun _ _ => None;
     fs_write := fun _ _ => None;
     fs_exists := fun _ => Ok true;
     storage_download := fun _ _ => Raise (PyExc "StorageException" "backend unreachable");
     storage_upload := fun _ _ _ _ => Raise (PyExc "StorageException" "backend unreachable");
     storage_get_public_url := fun _ _ => Raise (PyExc "StorageException" "backend unreachable");
     storage_list := fun _ => Raise (PyExc "StorageException" "backend unreachable");
     storage_remove := fun _ _ => Some (PyExc "StorageException" "backend unreachable") |}.

(** A backend that serves three bytes for every object and resolves URLs. *)
Definition online : Client :=
  {| fs_mkdir_parent := fun _ => None;
     fs_open := fun _ _ => None;
     fs_write := fun _ _ => None;
     fs_exists := fun _ => Ok true;
     storage_download := fun _ _ => Ok [Byte.x01; Byte.x02; Byte.x03];
     storage_upload := fun _ _ _ _ => Ok (Some 200%Z);
     storage_get_public_url := fun bucket key => Ok ("https://db.test/" +:+ bucket +:+ "/" +:+ key);
     storage_list := fun _ => Ok ["a.tif"; "b.tif"];
     storage_remove := fun _ _ => None |}.

(** A file system that cannot look up a name of more than 255 characters
    and holds no file. *)
Definition short_names : Client :=
  {| fs_mkdir_parent := fun _ => None;
     fs_open := fun _ _ => None;
     fs_write := fun _ _ => None;
     fs_exists := fun path =>
       if Nat.ltb 255 (String.length path)
       then Raise (PyExc "OSError" ("[Errno 36] File name too long: '" +:+ path +:+ "'"))
       else Ok false;
     storage_download := fun _ _ => Ok [];
     storage_upload := fun _ _ _ _ => Ok (Some 200%Z);
     storage_get_public_url := fun bucket key => Ok ("https://db.test/" +:+ bucket +:+ "/" +:+ key);
     storage_list := fun _ => Ok [];
     storage_remove := fun _ _ => None |}.

(** A path of 309 characters. *)
Definition long_name : string :=
  "/tmp/" +:+ string_of_list_ascii (repeat "a"%char 300) +:+ ".tif".

(** A deployment with credentials and no [WEBHOOK_URL]. *)
Definition without_webhook (processing : result pyval) : Env :=
  {| getenv := Sample.environ None (Some "https://db.test") (Some "service-key");
     requests_post := fun _ _ _ => Sample.accepted;
     processar_ortomosaico := fun _ _ => processing;
     add_task := fun _ _ => None |}.

(** A server whose task queue refuses new tasks. *)
Definition queue_full : Env :=
  {| getenv := Sample.environ None (Some "https://db.test") (Some "service-key");
     requests_post := fun _ _ _ => Sample.accepted;
     processar_ortomosaico := fun _ _ => Ok (PyBool true);
     add_task := fun _ _ => Some (PyExc "RuntimeError" "queue full") |}.

(** A deployment without credentials whose webhook endpoint works. *)
Definition unconfigured : Env :=
  {| getenv := Sample.environ (Some "https://hooks.test/status") None None;
     requests_post := fun _ _ _ => Sample.accepted;
     processar_ortomosaico := fun _ _ => Ok (PyBool true);
     add_task := fun _ _ => None |}.

Definition unreachable : string -> gmap string string -> gmap string string -> result Response :=
  fun _ _ _ => Raise (PyExc "ConnectionError" "endpoint unreachable").

(** A process that has [SUPABASE_URL] but no [SUPABASE_KEY], beside a
    [.env] file that holds both. *)
Definition key_only_in_dotenv : Connect.Sys :=
  {| Connect.environ := fun name =>
       if String.eqb name "SUPABASE_URL" then Some "https://db.test" else None;
     Connect.environ_after_dotenv := fun name =>
       if String.eqb name "SUPABASE_URL" then Some "https://db.test"
       else if String.eqb name "SUPABASE_KEY" then Some "service-key" else None;
     Connect.create_client := fun _ _ _ => Ok online |}.

(** A process with an empty environment beside a complete [.env] file. *)
Definition all_in_dotenv : Connect.Sys :=
  {| Connect.environ := fun _ => None;
     Connect.environ_after_dotenv := fun name =>
       if String.eqb name "SUPABASE_URL" then Some "https://db.test"
       else if String.eqb name "SUPABASE_KEY" then Some "service-key" else None;
     Connect.create_client := fun _ _ _ => Ok online |}.

(** The same with a library that cannot build the client. *)
Definition library_fails : Connect.Sys :=
  {| Connect.environ := fun _ => None;
     Connect.environ_after_dotenv := fun name =>
       if String.eqb name "SUPABASE_URL" then Some "https://db.test"
       else if String.eqb name "SUPABASE_KEY" then Some "service-key" else None;
     Connect.create_client := fun _ _ _ => Raise (PyExc "SupabaseException" "invalid url") |}.

End Scenario.

(** ** Storage gateway *)

Section Locator.

Lemma cut_some sep s before after :
  cut sep s = Some (before, after) ->
  s = before +:+ String sep after /\ ~ has_char sep before.
Proof.
  revert before after.
  induction s as [|c s IH]; intros before after; simpl; [discriminate|].
  destruct (Ascii.eqb_spec c sep) as [->|Hne].
  - intros [= <- <-]. split; [reflexivity | intros []].
  - destruct (cut sep s) as [[b k]|] eqn:E; [|discriminate].
    intros [= <- <-]. destruct (IH b k eq_refl) as [-> Hb].
    split; [reflexivity|].
    unfold has_char; simpl. intros [Hc|Hin]; [congruence | exact (Hb Hin)].
Qed.

Lemma cut_none sep s : cut sep s = None -> ~ has_char sep s.
Proof.
  induction s as [|c s IH]; simpl; [intros _ []|].
  destruct (Ascii.eqb_spec c sep) as [->|Hne]; [discriminate|].
  destruct (cut sep s) as [[b k]|]; [discriminate|].
  intros _. unfold has_char; simpl. intros [Hc|Hin]; [congruence | exact (IH eq_refl Hin)].
Qed.

Lemma locator_split s : split_on_first_slash s (locator s).1 (locator s).2.
Proof.
  unfold locator, split_on_first_slash.
  destruct (cut "/" s) as [[b k]|] eqn:E; simpl.
  - destruct (cut_some _ _ _ _ E) as [-> Hb]. split; [exact Hb | left; reflexivity].
  - split; [exact (cut_none _ _ E) | right; split; reflexivity].
Qed.

Lemma has_char_mid c a b : has_char c (a +:+ String c b).
Proof.
  unfold has_char. induction a as [|x a IH]; simpl; [left; reflexivity | right; exact IH].
Qed.

Lemma app_slash_inj b1 k1 b2 k2 :
  ~ has_char "/" b1 -> ~ has_char "/" b2 ->
  b1 +:+ "/" +:+ k1 = b2 +:+ "/" +:+ k2 -> b1 = b2 /\ k1 = k2.
Proof.
  revert b2. induction b1 as [|c b1 IH]; intros [|d b2] H1 H2 E;
    unfold append in E; fold append in E.
  - injection E as ->. split; reflexivity.
  - injection E as <- _. exfalso. apply H2. left. reflexivity.
  - injection E as -> _. exfalso. apply H1. left. reflexivity.
  - injection E as -> E. destruct (IH b2) as [-> ->]; [| |exact E|split; reflexivity].
    + intros H. apply H1. right. exact H.
    + intros H. apply H2. right. exact H.
Qed.

(** The rule determines the pair: there is one way to read a locator. *)
Lemma split_on_first_slash_unique s b1 k1 b2 k2 :
  split_on_first_slash s b1 k1 -> split_on_first_slash s b2 k2 -> b1 = b2 /\ k1 = k2.
Proof.
  intros [N1 [E1|[E1 K1]]] [N2 [E2|[E2 K2]]]; subst.
  - apply app_slash_inj; assumption.
  - exfalso. apply N2. apply has_char_mid.
  - exfalso. apply N1. apply has_char_mid.
  - split; reflexivity.
Qed.

Lemma parse_bucket s : index (split1 "/" s) 0 = ret (locator s).1.
Proof. unfold split1, locator. destruct (cut "/" s) as [[b k]|]; reflexivity. Qed.

Lemma parse_key s :
  (if decide (1 < length (split1 "/" s)) then index (split1 "/" s) 1 else ret "")
  = ret (locator s).2.
Proof. unfold split1, locator. destruct (cut "/" s) as [[b k]|]; reflexivity. Qed.

End Locator.

(** Run the model one external call at a time: take the next oracle the goal
    is blocked on, split on its answer and evaluate up to the next one. *)
Ltac step :=
  match goal with
  | |- context [raised ?o] => destruct o eqn:?; cbn
  | |- context [match ?o with Ok _ => _ | Raise _ => _ end] => destruct o eqn:?; cbn
  | |- context [if ?b then _ else _] => destruct b eqn:?; cbn
  end.

Ltac parse_locator s :=
  cbv zeta; rewrite (parse_bucket s), (parse_key s);
  destruct (locator s) as [? ?] eqn:?; cbn.

Section Storage.

Variable client : Client.

Lemma baixar_arquivo_addressed s dest :
  head (trace (baixar_arquivo client s dest))
  = Some (Log INFO ("Baixando arquivo " +:+ (locator s).2 +:+ " do bucket "
                    +:+ (locator s).1)) /\
  addressed (trace (baixar_arquivo client s dest))
  = match fs_mkdir_parent client dest with
    | None => [locator s]
    | Some _ => []
    end.
Proof.
  unfold baixar_arquivo. parse_locator s.
  repeat step; split; reflexivity.
Qed.

Lemma enviar_arquivo_addressed local s :
  head (trace (enviar_arquivo client local s))
  = Some (Log INFO ("Enviando arquivo " +:+ local +:+ " para " +:+ (locator s).1
                    +:+ "/" +:+ (locator s).2)) /\
  addressed (trace (enviar_arquivo client local s))
  = match fs_exists client local with
    | Ok true =>
        match fs_open client local "rb" with
        | Some _ => []
        | None =>
            match storage_upload client (locator s).1 (locator s).2 local upload_options with
            | Ok _ => [locator s; locator s]
            | Raise _ => [locator s]
            end
        end
    | _ => []
    end.
Proof.
  unfold enviar_arquivo. parse_locator s.
  repeat step; split; reflexivity.
Qed.

Lemma excluir_arquivo_addressed s :
  head (trace (excluir_arquivo client s))
  = Some (Log INFO ("Excluindo arquivo " +:+ (locator s).2 +:+ " do bucket "
                    +:+ (locator s).1)) /\
  addressed (trace (excluir_arquivo client s)) = [locator s].
Proof.
  unfold excluir_arquivo. parse_locator s.
  repeat step; split; reflexivity.
Qed.

End Storage.

(** C6. Every operation that parses a storage locator ([baixar_arquivo],
    [enviar_arquivo], [excluir_arquivo]) cuts it at the first ["/"] only: the
    bucket it names and addresses is the part before that ["/"] and holds no
    ["/"], the key is all that follows; without a ["/"] the bucket is the whole
    string and the key is empty. ["bucket/a/b.tif"] gives bucket ["bucket"],
    key ["a/b.tif"]; ["bucket"] gives bucket ["bucket"], key [""]. *)
Theorem locator_cut_at_first_slash (s : string) :
  (exists bucket key,
     split_on_first_slash s bucket key /\
     (forall client dest,
        head (trace (baixar_arquivo client s dest))
        = Some (Log INFO ("Baixando arquivo " +:+ key +:+ " do bucket " +:+ bucket)) /\
        addressed (trace (baixar_arquivo client s dest))
        = match fs_mkdir_parent client dest with
          | None => [(bucket, key)]
          | Some _ => []
          end) /\
     (forall client local,
        head (trace (enviar_arquivo client local s))
        = Some (Log INFO ("Enviando arquivo " +:+ local +:+ " para " +:+ bucket
                          +:+ "/" +:+ key)) /\
        addressed (trace (enviar_arquivo client local s))
        = match fs_exists client local with
          | Ok true =>
              match fs_open client local "rb" with
              | Some _ => []
              | None =>
                  match storage_upload client bucket key local upload_options with
                  | Ok _ => [(bucket, key); (bucket, key)]
                  | Raise _ => [(bucket, key)]
                  end
              end
          | _ => []
          end) /\
     (forall client,
        head (trace (excluir_arquivo client s))
        = Some (Log INFO ("Excluindo arquivo " +:+ key +:+ " do bucket " +:+ bucket)) /\
        addressed (trace (excluir_arquivo client s)) = [(bucket, key)])) /\
  (forall client,
     addressed (trace (excluir_arquivo client "bucket/a/b.tif")) = [("bucket", "a/b.tif")] /\
     addressed (trace (excluir_arquivo client "bucket")) = [("bucket", "")]) /\
  split_on_first_slash "bucket/a/b.tif" "bucket" "a/b.tif" /\
  split_on_first_slash "bucket" "bucket" "".
Proof.
  split; [|split; [|split]].
  - exists (locator s).1, (locator s).2. split; [apply locator_split|].
    pose proof (fun c d => baixar_arquivo_addressed c s d) as Hb.
    pose proof (fun c l => enviar_arquivo_addressed c l s) as He.
    pose proof (fun c => excluir_arquivo_addressed c s) as Hx.
    destruct (locator s) as [b k]. simpl in *. auto.
  - intros client. split; apply excluir_arquivo_addressed.
  - apply (locator_split "bucket/a/b.tif").
  - apply (locator_split "bucket").
Qed.

(** C7 as stated fails on a path the file system cannot look up. No file
    has a name longer than the file system allows, yet for such a path
    [Path.exists()] raises [OSError] instead of answering [False], and the
    upload ends with that [OSError], logged, which is no
    [FileNotFoundError]. *)
Lemma upload_of_unnameable_file :
  fs_exists Scenario.short_names Scenario.long_name
  = Raise (PyExc "OSError"
             ("[Errno 36] File name too long: '" +:+ Scenario.long_name +:+ "'")) /\
  outcome (enviar_arquivo Scenario.short_names Scenario.long_name "ortomosaicos/p1/t1.tif")
  = Raise (PyExc "OSError"
             ("[Errno 36] File name too long: '" +:+ Scenario.long_name +:+ "'")) /\
  (forall msg,
     outcome (enviar_arquivo Scenario.short_names Scenario.long_name
                "ortomosaicos/p1/t1.tif")
     <> Raise (FileNotFoundError msg)).
Proof.
  split; [vm_compute; reflexivity|]. split; [vm_compute; reflexivity|].
  intros msg Hout. vm_compute in Hout. discriminate Hout.
Qed.

(** C7, amended. An upload whose existence test answers [False] fails with
    [FileNotFoundError]; an upload whose existence test itself raises fails
    with that exception, logged. In both cases no network call is made:
    neither the storage upload nor the public-URL resolution is attempted. *)
Theorem upload_of_missing_file (client : Client) (caminho_local caminho_bucket : string) :
  let r := enviar_arquivo client caminho_local caminho_bucket in
  (fs_exists client caminho_local = Ok false ->
   outcome r
   = Raise (FileNotFoundError ("Arquivo " +:+ caminho_local +:+ " não encontrado")) /\
   network_calls (trace r) = []) /\
  (forall e, fs_exists client caminho_local = Raise e ->
     outcome r = Raise e /\
     network_calls (trace r) = [] /\
     last (trace r)
     = Some (Log ERROR ("Erro ao enviar arquivo " +:+ caminho_local +:+ " para "
                        +:+ caminho_bucket +:+ ": " +:+ str_exn e))).
Proof.
  cbv zeta. unfold enviar_arquivo. parse_locator caminho_bucket. split.
  - intros ->. cbn. split; reflexivity.
  - intros e ->. cbn. repeat split; reflexivity.
Qed.

(** C8. Once the storage upload has succeeded, [enviar_arquivo] does not
    fail: when the public-URL resolution raises it logs a warning and
    returns [None], and the upload is not undone (no removal is issued);
    when the resolution answers, that URL is returned. Only what happens
    before or during the upload reaches the caller as an exception. *)
Theorem upload_survives_url_failure (client : Client) (caminho_local caminho_bucket : string)
    (response : option Z) :
  fs_exists client caminho_local = Ok true ->
  fs_open client caminho_local "rb" = None ->
  storage_upload client (locator caminho_bucket).1 (locator caminho_bucket).2
    caminho_local upload_options = Ok response ->
  let r := enviar_arquivo client caminho_local caminho_bucket in
  let resolved :=
    storage_get_public_url client (locator caminho_bucket).1 (locator caminho_bucket).2 in
  outcome r = match resolved with
              | Ok url => Ok (Some url)
              | Raise _ => Ok None
              end /\
  (forall url_error, resolved = Raise url_error ->
     last (trace r)
     = Some (Log WARNING ("Não foi possível obter URL pública para " +:+ caminho_bucket
                          +:+ ": " +:+ str_exn url_error))) /\
  In (StorageUpload (locator caminho_bucket).1 (locator caminho_bucket).2 caminho_local
        upload_options) (trace r) /\
  List.filter is_removal (trace r) = [].
Proof.
  intros Hexists Hopen Hupload. unfold enviar_arquivo.
  parse_locator caminho_bucket. simpl in *.
  rewrite Hexists; cbn. rewrite Hopen; cbn. rewrite Hupload; cbn.
  step.
  - repeat split; [discriminate | auto 10].
  - repeat split; [intros ? [= <-]; reflexivity | auto 10].
Qed.

Lemma upload_of_missing_file_witness :
  outcome (enviar_arquivo Sample.storage "/data/missing.tif" "ortomosaicos/p1/t1.tif")
  = Raise (FileNotFoundError ("Arquivo " +:+ "/data/missing.tif" +:+ " não encontrado")) /\
  network_calls (trace (enviar_arquivo Scenario.short_names Scenario.long_name
                          "ortomosaicos/p1/t1.tif")) = [].
Proof.
  split.
  - apply (proj1 (upload_of_missing_file Sample.storage "/data/missing.tif"
                    "ortomosaicos/p1/t1.tif")).
    reflexivity.
  - apply (proj2 (upload_of_missing_file Scenario.short_names Scenario.long_name
                    "ortomosaicos/p1/t1.tif")
             (PyExc "OSError"
                ("[Errno 36] File name too long: '" +:+ Scenario.long_name +:+ "'"))).
    vm_compute. reflexivity.
Defined.

Lemma upload_survives_url_failure_witness :
  outcome (enviar_arquivo Sample.storage "/data/ortho.tif" "ortomosaicos/p1/t1.tif")
  = Ok None /\
  List.filter is_removal
    (trace (enviar_arquivo Sample.storage "/data/ortho.tif" "ortomosaicos/p1/t1.tif")) = [].
Proof.
  destruct (upload_survives_url_failure Sample.storage "/data/ortho.tif"
              "ortomosaicos/p1/t1.tif" (Some 200%Z)) as (Hout & _ & _ & Hkept);
    [reflexivity | reflexivity | reflexivity |].
  split; [exact Hout | exact Hkept].
Defined.

(** ** Webhook notifier *)

Section Notifier.

Variable env : Env.

Lemma notified_app a b : notified (a ++ b) = notified a ++ notified b.
Proof. apply flat_map_app. Qed.

Lemma posted_app a b : posted (a ++ b) = posted a ++ posted b.
Proof. apply flat_map_app. Qed.

Lemma in_posted url json hdrs tr : In (HttpPost url json hdrs) tr -> In json (posted tr).
Proof.
  intros Hin. unfold posted. apply in_flat_map.
  exists (HttpPost url json hdrs). split; [exact Hin | left; reflexivity].
Qed.

(** The notifier always comes back, hands nothing to itself, never runs the
    processing, and posts at most the one payload it built. *)
Lemma enviar_webhook_returns ip it st msg :
  exists tr,
    enviar_webhook env ip it st msg = Run (Ok tt) tr /\
    notified tr = [] /\
    posted tr = (if truthy (getenv env "WEBHOOK_URL")
                 then [webhook_payload ip it st msg] else []) /\
    (forall a b, ~ In (CallProcessar a b) tr).
Proof.
  unfold enviar_webhook.
  destruct (truthy (getenv env "WEBHOOK_URL")); cbn.
  - repeat step; eexists; (repeat split; [reflexivity..|]);
      intros ? ? [[=]|[[=]|[]]].
  - eexists; (repeat split; [reflexivity..|]); intros ? ? [[=]|[]].
Qed.

End Notifier.

(** C9. [enviar_webhook] never raises. Without a webhook URL it logs a
    warning and makes no network call; with one it makes exactly one HTTP
    POST, logs success for a 200-299 answer and an error for any other
    answer or for an exception of the transport, and returns normally. *)
Theorem enviar_webhook_never_raises (env : Env) (id_projeto id_talhao status : string)
    (mensagem : option string) :
  let r := enviar_webhook env id_projeto id_talhao status mensagem in
  outcome r = Ok tt /\
  if truthy (getenv env "WEBHOOK_URL") then
    exists url lvl line,
      getenv env "WEBHOOK_URL" = Some url /\
      trace r = [HttpPost url (webhook_payload id_projeto id_talhao status mensagem)
                   json_headers;
                 Log lvl line] /\
      (lvl = INFO \/ lvl = ERROR) /\
      (lvl = INFO <->
       exists response,
         requests_post env url (webhook_payload id_projeto id_talhao status mensagem)
           json_headers = Ok response /\
         (200 <= status_code response < 300)%Z)
  else
    trace r = [Log WARNING "URL de webhook não configurada. Notificação não enviada."].
Proof.
  unfold enviar_webhook.
  destruct (getenv env "WEBHOOK_URL") as [url|] eqn:Hurl; cbn; [|split; reflexivity].
  destruct (truthy_str url) eqn:Hset; cbn; [|split; reflexivity].
  destruct (requests_post env url _ json_headers) as [response|e] eqn:Hpost; cbn.
  - destruct (200 <=? status_code response)%Z eqn:Hlo;
      destruct (status_code response <? 300)%Z eqn:Hhi; cbn;
      (split; [reflexivity|]); exists url; do 2 eexists;
      (split; [reflexivity|]); (split; [reflexivity|]).
    + split; [left; reflexivity|]. split; [intros _|reflexivity].
      exists response. split; [exact Hpost | lia].
    + split; [right; reflexivity|]. split; [discriminate|].
      intros (r' & Hr' & Hr). rewrite Hpost in Hr'. injection Hr' as <-. lia.
    + split; [right; reflexivity|]. split; [discriminate|].
      intros (r' & Hr' & Hr). rewrite Hpost in Hr'. injection Hr' as <-. lia.
    + split; [right; reflexivity|]. split; [discriminate|].
      intros (r' & Hr' & Hr). rewrite Hpost in Hr'. injection Hr' as <-. lia.
  - split; [reflexivity|]. exists url. do 2 eexists.
    split; [reflexivity|]. split; [reflexivity|].
    split; [right; reflexivity|]. split; [discriminate|].
    intros (r' & Hr' & _). rewrite Hpost in Hr'. discriminate.
Qed.

Lemma enviar_webhook_never_raises_witness :
  outcome (enviar_webhook Sample.endpoint_down "p1" "t1" "iniciado" None) = Ok tt.
Proof.
  exact (proj1 (enviar_webhook_never_raises Sample.endpoint_down "p1" "t1" "iniciado" None)).
Defined.

Section Payload.

Variables (id_projeto id_talhao status : string) (mensagem : option string).

Lemma payload_mensagem :
  webhook_payload id_projeto id_talhao status mensagem !! "mensagem"
  = if truthy mensagem then mensagem else None.
Proof.
  unfold webhook_payload.
  destruct mensagem as [m|]; simpl; [destruct m as [|c m]; simpl|].
  - by rewrite !lookup_insert_ne, lookup_empty.
  - by rewrite lookup_insert_eq.
  - by rewrite !lookup_insert_ne, lookup_empty.
Qed.

Lemma payload_status :
  webhook_payload id_projeto id_talhao status mensagem !! "status" = Some status.
Proof.
  unfold webhook_payload.
  destruct (truthy mensagem);
    [rewrite lookup_insert_ne by done|]; by rewrite lookup_insert_eq.
Qed.

Lemma payload_mensagem_present :
  is_Some (webhook_payload id_projeto id_talhao status mensagem !! "mensagem")
  <-> truthy mensagem = true.
Proof.
  rewrite payload_mensagem.
  destruct mensagem as [m|]; simpl; [destruct m; simpl|].
  - split; [intros [? [=]] | discriminate].
  - split; [reflexivity | eauto].
  - split; [intros [? [=]] | discriminate].
Qed.

(** Whatever [enviar_webhook] posts is the payload it built, sent to the
    configured URL. *)
Lemma enviar_webhook_posts env url json hdrs :
  In (HttpPost url json hdrs)
     (trace (enviar_webhook env id_projeto id_talhao status mensagem)) ->
  json = webhook_payload id_projeto id_talhao status mensagem /\
  getenv env "WEBHOOK_URL" = Some url.
Proof.
  unfold enviar_webhook.
  destruct (getenv env "WEBHOOK_URL") as [u|]; cbn; [|intros [[=]|[]]].
  destruct (truthy_str u); cbn; [|intros [[=]|[]]].
  repeat step; (intros [[= <- <- <-]|[[=]|[]]]; split; reflexivity).
Qed.

End Payload.

(** ** Request gateway *)

(** The path the validation lets through: the run is scheduled and the
    acknowledgement returned. *)
Lemma valid_request_is_scheduled (env : Env) (request : ProcessamentoRequest) :
  truthy_str (id_projeto request) = true ->
  truthy_str (id_talhao request) = true ->
  add_task env (id_projeto request) (id_talhao request) = None ->
  iniciar_processamento env request
  = Run (Ok {| resp_id_projeto := id_projeto request;
               resp_id_talhao := id_talhao request;
               resp_status := "iniciado";
               resp_mensagem := Some "Processamento iniciado com sucesso" |})
        [AddTask (id_projeto request) (id_talhao request)].
Proof.
  intros Hp Ht Hadd. unfold iniciar_processamento.
  rewrite Hp, Ht. cbn. rewrite Hadd. reflexivity.
Qed.

(** C2, on the code. A request with an empty [id_projeto] or [id_talhao]
    never schedules a run; the [HTTPException] of status 400 that the
    validation raises is caught by the handler's own [except Exception], and
    what leaves the handler is an [HTTPException] of status 500 whose detail
    is the text of the first. *)
Theorem empty_id_is_answered_500 (env : Env) (request : ProcessamentoRequest) :
  id_projeto request = "" \/ id_talhao request = "" ->
  let rejected := HTTPException 400 "ID de projeto e talhão são obrigatórios" in
  outcome (iniciar_processamento env request)
  = Raise (HTTPException 500 (str_exn rejected)) /\
  trace (iniciar_processamento env request)
  = [Log ERROR ("Erro ao iniciar processamento: " +:+ str_exn rejected)].
Proof.
  intros Hempty. unfold iniciar_processamento.
  assert (negb (truthy_str (id_projeto request)) || negb (truthy_str (id_talhao request))
          = true) as ->.
  { destruct Hempty as [-> | ->]; [reflexivity|]. apply orb_true_r. }
  split; reflexivity.
Qed.

Lemma empty_id_is_answered_500_witness :
  outcome (iniciar_processamento (Sample.configured (Ok (PyBool true)))
             {| id_projeto := ""; id_talhao := "t1" |})
  = Raise (HTTPException 500 "400: ID de projeto e talhão são obrigatórios") /\
  trace (iniciar_processamento (Sample.configured (Ok (PyBool true)))
           {| id_projeto := ""; id_talhao := "t1" |})
  = [Log ERROR "Erro ao iniciar processamento: 400: ID de projeto e talhão são obrigatórios"].
Proof.
  apply (empty_id_is_answered_500 (Sample.configured (Ok (PyBool true)))
           {| id_projeto := ""; id_talhao := "t1" |}).
  left. reflexivity.
Defined.

(** ** Orchestrator *)

Arguments configurado : simpl never.

Section Runs.

Variable env : Env.
Variable notifier : string -> string -> string -> option string -> M unit.
Variables id_projeto id_talhao : string.

Let opening : list event :=
  [Log INFO ("Iniciando processamento em background para projeto " +:+ id_projeto
             +:+ ", talhão " +:+ id_talhao);
   Log INFO ("Configurações: SUPABASE_URL=" +:+ configurado (getenv env "SUPABASE_URL")
             +:+ ", SUPABASE_KEY=" +:+ configurado (getenv env "SUPABASE_KEY")
             +:+ ", WEBHOOK_URL=" +:+ configurado (getenv env "WEBHOOK_URL"))].

Let secondary (r : result unit) : list event :=
  match r with
  | Ok _ => []
  | Raise webhook_error =>
      [Log ERROR ("Erro ao enviar webhook de erro: " +:+ str_exn webhook_error)]
  end.

Lemma credentials_checked :
  forallb truthy [getenv env "SUPABASE_URL"; getenv env "SUPABASE_KEY"]
  = credentials_present env.
Proof. unfold credentials_present. simpl. by rewrite andb_true_r. Qed.

(** Credentials missing: the guard raises inside the [try], before any
    notification of the start. *)
Lemma run_unconfigured r t :
  credentials_present env = false ->
  notifier id_projeto id_talhao "erro" (Some "Credenciais do Supabase não configuradas")
  = Run r t ->
  executar_processamento_background_with env notifier id_projeto id_talhao
  = Run (Raise (ValueError "Credenciais do Supabase não configuradas"))
      (opening ++
       [Log ERROR ("Erro no processamento background: "
                   +:+ "Credenciais do Supabase não configuradas");
        Notify id_projeto id_talhao "erro"
          (Some "Credenciais do Supabase não configuradas")]
       ++ t ++ secondary r).
Proof.
  intros Hcred Hsent.
  unfold executar_processamento_background_with, notify.
  cbv zeta. rewrite credentials_checked, Hcred. cbn.
  rewrite Hsent. destruct r as [[]|we]; cbn; rewrite ?app_nil_r; reflexivity.
Qed.

(** Credentials present, the processing returns. *)
Lemma run_returns t1 v :
  credentials_present env = true ->
  notifier id_projeto id_talhao "iniciado" None = Run (Ok tt) t1 ->
  processar_ortomosaico env id_projeto id_talhao = Ok v ->
  executar_processamento_background_with env notifier id_projeto id_talhao
  = Run (Ok tt)
      (opening ++
       [Log INFO "Enviando webhook de início";
        Notify id_projeto id_talhao "iniciado" None]
       ++ t1 ++
       [Log INFO "Iniciando função de processamento";
        CallProcessar id_projeto id_talhao;
        Log INFO ("Processamento concluído com sucesso: " +:+ str_val v)]).
Proof.
  intros Hcred Hstart Hv.
  unfold executar_processamento_background_with, notify.
  cbv zeta. rewrite credentials_checked, Hcred. cbn.
  rewrite Hstart. cbn. rewrite Hv. cbn. reflexivity.
Qed.

(** Credentials present, the processing raises. *)
Lemma run_raises t1 e r t2 :
  credentials_present env = true ->
  notifier id_projeto id_talhao "iniciado" None = Run (Ok tt) t1 ->
  processar_ortomosaico env id_projeto id_talhao = Raise e ->
  notifier id_projeto id_talhao "erro" (Some (str_exn e)) = Run r t2 ->
  executar_processamento_background_with env notifier id_projeto id_talhao
  = Run (Raise e)
      ((opening ++
        [Log INFO "Enviando webhook de início";
         Notify id_projeto id_talhao "iniciado" None]
        ++ t1 ++
        [Log INFO "Iniciando função de processamento";
         CallProcessar id_projeto id_talhao])
       ++ [Log ERROR ("Erro no processamento background: " +:+ str_exn e);
           Notify id_projeto id_talhao "erro" (Some (str_exn e))]
       ++ t2 ++ secondary r).
Proof.
  intros Hcred Hstart He Hsent.
  unfold executar_processamento_background_with, notify.
  cbv zeta. rewrite credentials_checked, Hcred. cbn.
  rewrite Hstart. cbn. rewrite He. cbn. rewrite Hsent.
  destruct r as [[]|we]; cbn; rewrite ?app_nil_r, <- ?app_assoc; reflexivity.
Qed.

End Runs.

Section Program.

Variable env : Env.
Variables id_projeto id_talhao : string.

Let run : M unit := executar_processamento_background env id_projeto id_talhao.

Let sent (payloads : list (gmap string string)) : list (gmap string string) :=
  if truthy (getenv env "WEBHOOK_URL") then payloads else [].

Let config_error : string := "Credenciais do Supabase não configuradas".

(** A run goes one of three ways, and each way fixes what the run hands
    to the notifier and what goes out over HTTP. *)
Lemma program_cases :
  (credentials_present env = false /\
   outcome run = Raise (ValueError config_error) /\
   notified (trace run) = [("erro", Some config_error)] /\
   posted (trace run) = sent [webhook_payload id_projeto id_talhao "erro" (Some config_error)] /\
   ~ In (CallProcessar id_projeto id_talhao) (trace run))
  \/
  (credentials_present env = true /\
   exists v,
     processar_ortomosaico env id_projeto id_talhao = Ok v /\
     outcome run = Ok tt /\
     notified (trace run) = [("iniciado", None)] /\
     posted (trace run) = sent [webhook_payload id_projeto id_talhao "iniciado" None] /\
     last (trace run)
     = Some (Log INFO ("Processamento concluído com sucesso: " +:+ str_val v)))
  \/
  (credentials_present env = true /\
   exists e,
     processar_ortomosaico env id_projeto id_talhao = Raise e /\
     outcome run = Raise e /\
     notified (trace run) = [("iniciado", None); ("erro", Some (str_exn e))] /\
     posted (trace run)
     = sent [webhook_payload id_projeto id_talhao "iniciado" None;
             webhook_payload id_projeto id_talhao "erro" (Some (str_exn e))]).
Proof.
  subst run sent config_error. unfold executar_processamento_background.
  destruct (credentials_present env) eqn:Hcred.
  - right.
    destruct (enviar_webhook_returns env id_projeto id_talhao "iniciado" None)
      as (t1 & E1 & N1 & P1 & _).
    destruct (processar_ortomosaico env id_projeto id_talhao) as [v|e] eqn:Hproc.
    + left. split; [reflexivity|]. exists v. split; [reflexivity|].
      rewrite (run_returns _ _ _ _ t1 v Hcred E1 Hproc). cbn [outcome trace].
      split; [reflexivity|].
      rewrite !notified_app, !posted_app, N1, P1.
      split; [reflexivity|]. split.
      * cbn. destruct (truthy (getenv env "WEBHOOK_URL")); reflexivity.
      * rewrite !app_assoc. rewrite !last_app. reflexivity.
    + right. split; [reflexivity|]. exists e. split; [reflexivity|].
      destruct (enviar_webhook_returns env id_projeto id_talhao "erro" (Some (str_exn e)))
        as (t2 & E2 & N2 & P2 & _).
      rewrite (run_raises _ _ _ _ t1 e _ t2 Hcred E1 Hproc E2). cbn [outcome trace].
      split; [reflexivity|].
      rewrite !notified_app, !posted_app, N1, P1, N2, P2.
      split; [reflexivity|].
      cbn. destruct (truthy (getenv env "WEBHOOK_URL")); reflexivity.
  - left. split; [reflexivity|].
    destruct (enviar_webhook_returns env id_projeto id_talhao "erro"
                (Some "Credenciais do Supabase não configuradas"))
      as (t & E & N & P & Hquiet).
    rewrite (run_unconfigured _ _ _ _ _ t Hcred E). cbn [outcome trace].
    split; [reflexivity|].
    rewrite !notified_app, !posted_app, N, P.
    split; [reflexivity|]. split.
    + cbn. destruct (truthy (getenv env "WEBHOOK_URL")); reflexivity.
    + rewrite !in_app_iff. cbn.
      intros [[[=]|[[=]|[]]]|[[[=]|[[=]|[]]]|[Hin|[]]]]. exact (Hquiet _ _ Hin).
Qed.

(** With the credentials present every run opens the same way: the two
    opening log lines, the announcement, then the start notification. *)
Lemma start_follows_check :
  credentials_present env = true ->
  exists rest,
    trace run
    = [Log INFO ("Iniciando processamento em background para projeto " +:+ id_projeto
                 +:+ ", talhão " +:+ id_talhao);
       Log INFO ("Configurações: SUPABASE_URL=" +:+ configurado (getenv env "SUPABASE_URL")
                 +:+ ", SUPABASE_KEY=" +:+ configurado (getenv env "SUPABASE_KEY")
                 +:+ ", WEBHOOK_URL=" +:+ configurado (getenv env "WEBHOOK_URL"));
       Log INFO "Enviando webhook de início";
       Notify id_projeto id_talhao "iniciado" None] ++ rest.
Proof.
  intros Hcred. subst run. unfold executar_processamento_background.
  destruct (enviar_webhook_returns env id_projeto id_talhao "iniciado" None)
    as (t1 & E1 & _).
  destruct (processar_ortomosaico env id_projeto id_talhao) as [v|e] eqn:Hproc.
  - rewrite (run_returns _ _ _ _ t1 v Hcred E1 Hproc). cbn [trace].
    eexists. reflexivity.
  - destruct (enviar_webhook_returns env id_projeto id_talhao "erro" (Some (str_exn e)))
      as (t2 & E2 & _).
    rewrite (run_raises _ _ _ _ t1 e _ t2 Hcred E1 Hproc E2). cbn [trace].
    rewrite <- !app_assoc. eexists. reflexivity.
Qed.

End Program.

Lemma posted_statuses_sent (env : Env) (payloads : list (gmap string string)) tr :
  posted tr = (if truthy (getenv env "WEBHOOK_URL") then payloads else []) ->
  forall st, In st (posted_statuses tr) ->
             In st (map (fun json : gmap string string => json !! "status") payloads).
Proof.
  unfold posted_statuses. intros ->.
  destruct (truthy (getenv env "WEBHOOK_URL")); [auto | intros ? []].
Qed.

Lemma credentials_absent (env : Env) :
  truthy (getenv env "SUPABASE_URL") = false \/ truthy (getenv env "SUPABASE_KEY") = false
  <-> credentials_present env = false.
Proof. unfold credentials_present. rewrite andb_false_iff. reflexivity. Qed.

(** C4. The check of [SUPABASE_URL] and [SUPABASE_KEY] comes before the
    notification of the start: when either is absent the run raises the
    configuration error and no ["iniciado"] webhook is emitted, neither
    handed to the notifier nor posted; an ["iniciado"] webhook is emitted
    only in a run whose check passed, and there it follows the log line
    that reports the configuration. *)
Theorem credentials_checked_before_start (env : Env) (id_projeto id_talhao : string) :
  let run := executar_processamento_background env id_projeto id_talhao in
  (truthy (getenv env "SUPABASE_URL") = false \/ truthy (getenv env "SUPABASE_KEY") = false ->
   outcome run = Raise (ValueError "Credenciais do Supabase não configuradas") /\
   ~ In "iniciado" (statuses (trace run)) /\
   ~ In (Some "iniciado") (posted_statuses (trace run)) /\
   ~ In (CallProcessar id_projeto id_talhao) (trace run)) /\
  (In "iniciado" (statuses (trace run)) \/ In (Some "iniciado") (posted_statuses (trace run)) ->
   (truthy (getenv env "SUPABASE_URL") = true /\ truthy (getenv env "SUPABASE_KEY") = true) /\
   exists rest,
     trace run
     = [Log INFO ("Iniciando processamento em background para projeto " +:+ id_projeto
                  +:+ ", talhão " +:+ id_talhao);
        Log INFO ("Configurações: SUPABASE_URL=" +:+ configurado (getenv env "SUPABASE_URL")
                  +:+ ", SUPABASE_KEY=" +:+ configurado (getenv env "SUPABASE_KEY")
                  +:+ ", WEBHOOK_URL=" +:+ configurado (getenv env "WEBHOOK_URL"));
        Log INFO "Enviando webhook de início";
        Notify id_projeto id_talhao "iniciado" None] ++ rest).
Proof.
  intros run. subst run.
  assert (credentials_present env = false ->
          outcome (executar_processamento_background env id_projeto id_talhao)
          = Raise (ValueError "Credenciais do Supabase não configuradas") /\
          ~ In "iniciado" (statuses (trace (executar_processamento_background env
                                                 id_projeto id_talhao))) /\
          ~ In (Some "iniciado")
               (posted_statuses (trace (executar_processamento_background env
                                          id_projeto id_talhao))) /\
          ~ In (CallProcessar id_projeto id_talhao)
               (trace (executar_processamento_background env id_projeto id_talhao)))
    as Habsent.
  { intros Hcred.
    destruct (program_cases env id_projeto id_talhao)
      as [(_ & Hout & Hn & Hp & Hcall)|[(Hc & _)|(Hc & _)]]; [|congruence..].
    split; [exact Hout|]. unfold statuses. rewrite Hn.
    split; [intros [[=]|[]]|]. split; [|exact Hcall].
    intros Hin. apply (posted_statuses_sent env _ _ Hp) in Hin. cbn [map] in Hin.
    rewrite payload_status in Hin. destruct Hin as [[=]|[]]. }
  split.
  - intros Hmissing. apply Habsent, credentials_absent, Hmissing.
  - intros Hstarted.
    destruct (credentials_present env) eqn:Hcred.
    + split; [apply andb_true_iff, Hcred|].
      apply start_follows_check, Hcred.
    + destruct (Habsent eq_refl) as (_ & Hn & Hp & _).
      destruct Hstarted as [H|H]; [destruct (Hn H) | destruct (Hp H)].
Qed.

Lemma credentials_checked_before_start_witness :
  outcome (executar_processamento_background
             (Sample.without_key (Ok (PyBool true))) "p1" "t1")
  = Raise (ValueError "Credenciais do Supabase não configuradas") /\
  truthy (getenv (Sample.configured (Ok (PyBool true))) "SUPABASE_KEY") = true.
Proof.
  split.
  - apply (credentials_checked_before_start (Sample.without_key (Ok (PyBool true)))
             "p1" "t1").
    right. reflexivity.
  - apply (credentials_checked_before_start (Sample.configured (Ok (PyBool true)))
             "p1" "t1").
    left. vm_compute. left. reflexivity.
Defined.

(** C5. When [processar_ortomosaico] returns, whatever it returns, also a
    false success indicator, the run is not a failure: it raises nothing and
    emits no ["erro"] webhook. *)
Theorem normal_return_is_not_a_failure (env : Env) (id_projeto id_talhao : string)
    (sucesso : pyval) :
  let run := executar_processamento_background env id_projeto id_talhao in
  In (CallProcessar id_projeto id_talhao) (trace run) ->
  processar_ortomosaico env id_projeto id_talhao = Ok sucesso ->
  outcome run = Ok tt /\
  ~ In "erro" (statuses (trace run)) /\
  ~ In (Some "erro") (posted_statuses (trace run)) /\
  last (trace run)
  = Some (Log INFO ("Processamento concluído com sucesso: " +:+ str_val sucesso)).
Proof.
  intros run Hcalled Hreturns. subst run.
  destruct (program_cases env id_projeto id_talhao)
    as [(_ & _ & _ & _ & Hnot)|[(_ & v & Hv & Hout & Hn & Hp & Hlast)|(_ & e & He & _)]];
    [destruct (Hnot Hcalled) | | congruence].
  assert (v = sucesso) as -> by congruence.
  split; [exact Hout|]. unfold statuses. rewrite Hn.
  split; [intros [[=]|[]]|]. split; [|exact Hlast].
  intros Hin. apply (posted_statuses_sent env _ _ Hp) in Hin. cbn [map] in Hin.
  rewrite payload_status in Hin. destruct Hin as [[=]|[]].
Qed.

Lemma normal_return_is_not_a_failure_witness :
  outcome (executar_processamento_background
             (Sample.configured (Ok (PyBool false))) "p1" "t1") = Ok tt.
Proof.
  apply (normal_return_is_not_a_failure (Sample.configured (Ok (PyBool false)))
           "p1" "t1" (PyBool false)).
  - vm_compute. do 7 right. left. reflexivity.
  - reflexivity.
Defined.




(** C10. Every body posted by [enviar_webhook] holds the key ["mensagem"]
    exactly when the message given is truthy, and then with that message:
    for [None] and for the empty string the key is absent. So in a failed
    run whose exception text is empty no body posted holds ["mensagem"],
    the ["erro"] one included. *)
Theorem mensagem_key_iff_truthy (env : Env) (id_projeto id_talhao : string) :
  (forall status mensagem url json hdrs,
     In (HttpPost url json hdrs)
        (trace (enviar_webhook env id_projeto id_talhao status mensagem)) ->
     (is_Some (json !! "mensagem") <-> truthy mensagem = true) /\
     json !! "mensagem" = (if truthy mensagem then mensagem else None) /\
     json !! "status" = Some status) /\
  (forall e,
     outcome (executar_processamento_background env id_projeto id_talhao) = Raise e ->
     str_exn e = "" ->
     posted (trace (executar_processamento_background env id_projeto id_talhao))
     = (if truthy (getenv env "WEBHOOK_URL")
        then [webhook_payload id_projeto id_talhao "iniciado" None;
              webhook_payload id_projeto id_talhao "erro" (Some "")]
        else []) /\
     forall url json hdrs,
       In (HttpPost url json hdrs)
          (trace (executar_processamento_background env id_projeto id_talhao)) ->
       json !! "mensagem" = None).
Proof.
  split.
  - intros status mensagem url json hdrs Hin.
    apply enviar_webhook_posts in Hin as [-> _].
    split; [apply payload_mensagem_present|].
    split; [apply payload_mensagem | apply payload_status].
  - intros e Hout Hempty.
    destruct (program_cases env id_projeto id_talhao)
      as [(_ & Hout' & _)|[(_ & v & _ & Hout' & _)|(_ & e' & _ & Hout' & _ & Hp)]].
    + rewrite Hout' in Hout. injection Hout as <-. discriminate Hempty.
    + rewrite Hout' in Hout. discriminate Hout.
    + rewrite Hout' in Hout. injection Hout as ->. rewrite Hempty in Hp.
      split; [exact Hp|].
      intros url json hdrs Hin. apply in_posted in Hin. rewrite Hp in Hin.
      destruct (truthy (getenv env "WEBHOOK_URL")); [|destruct Hin].
      destruct Hin as [<-|[<-|[]]]; apply payload_mensagem.
Qed.

Lemma mensagem_key_iff_truthy_witness :
  webhook_payload "p1" "t1" "erro" (Some "mosaic not found") !! "mensagem"
  = Some "mosaic not found" /\
  webhook_payload "p1" "t1" "erro" (Some "") !! "mensagem" = None.
Proof.
  destruct (mensagem_key_iff_truthy
              (Sample.configured (Raise (PyExc "RuntimeError" ""))) "p1" "t1")
    as [Hsent Hfailed].
  split.
  - apply (Hsent "erro" (Some "mosaic not found") "https://hooks.test/status" _
             json_headers).
    left. reflexivity.
  - apply (proj2 (Hfailed (PyExc "RuntimeError" "") eq_refl eq_refl)
             "https://hooks.test/status" _ json_headers).
    vm_compute. do 10 right. left. reflexivity.
Defined.

(** ** Storage gateway: further properties *)

(** X1. A successful [baixar_arquivo] returns the destination path it was
    given, after fetching one object, the one the locator names, and
    writing exactly the bytes fetched to the destination. *)
Theorem download_writes_what_it_fetched (client : Client)
    (caminho_bucket caminho_local path : string) :
  outcome (baixar_arquivo client caminho_bucket caminho_local) = Ok path ->
  path = caminho_local /\
  exists data,
    storage_download client (locator caminho_bucket).1 (locator caminho_bucket).2 = Ok data /\
    List.filter (fun ev => is_network ev || touches_destination ev)
      (trace (baixar_arquivo client caminho_bucket caminho_local))
    = [StorageDownload (locator caminho_bucket).1 (locator caminho_bucket).2;
       OpenFile caminho_local "wb";
       WriteFile caminho_local data].
Proof.
  unfold baixar_arquivo. parse_locator caminho_bucket.
  repeat step; intros [=]; subst.
  split; [reflexivity|]. eexists. split; reflexivity.
Qed.

Lemma download_writes_what_it_fetched_witness :
  exists data,
    storage_download Scenario.online "ortomosaicos" "p1/t1.tif" = Ok data /\
    List.filter (fun ev => is_network ev || touches_destination ev)
      (trace (baixar_arquivo Scenario.online "ortomosaicos/p1/t1.tif" "/tmp/t1.tif"))
    = [StorageDownload "ortomosaicos" "p1/t1.tif";
       OpenFile "/tmp/t1.tif" "wb";
       WriteFile "/tmp/t1.tif" data].
Proof.
  exact (proj2 (download_writes_what_it_fetched Scenario.online "ortomosaicos/p1/t1.tif"
                  "/tmp/t1.tif" "/tmp/t1.tif" eq_refl)).
Defined.

(** X2. [baixar_arquivo] opens its destination only once the object is in
    hand: when the directory cannot be made nothing is asked of the backend,
    and when the download fails the destination is neither opened nor
    written, and the backend's exception is the one raised. *)
Theorem failed_download_leaves_destination (client : Client)
    (caminho_bucket caminho_local : string) :
  let r := baixar_arquivo client caminho_bucket caminho_local in
  (forall e, fs_mkdir_parent client caminho_local = Some e ->
     outcome r = Raise e /\ network_calls (trace r) = [] /\
     List.filter touches_destination (trace r) = []) /\
  (forall e,
     fs_mkdir_parent client caminho_local = None ->
     storage_download client (locator caminho_bucket).1 (locator caminho_bucket).2 = Raise e ->
     outcome r = Raise e /\
     network_calls (trace r)
     = [StorageDownload (locator caminho_bucket).1 (locator caminho_bucket).2] /\
     List.filter touches_destination (trace r) = []).
Proof.
  cbv zeta. unfold baixar_arquivo. parse_locator caminho_bucket. split.
  - intros e ->. cbn. repeat split; reflexivity.
  - intros e -> ->. cbn. repeat split; reflexivity.
Qed.

Lemma failed_download_leaves_destination_witness :
  outcome (baixar_arquivo Scenario.offline "ortomosaicos/p1/t1.tif" "/tmp/t1.tif")
  = Raise (PyExc "StorageException" "backend unreachable") /\
  List.filter touches_destination
    (trace (baixar_arquivo Scenario.offline "ortomosaicos/p1/t1.tif" "/tmp/t1.tif")) = [].
Proof.
  destruct (proj2 (failed_download_leaves_destination Scenario.offline
                     "ortomosaicos/p1/t1.tif" "/tmp/t1.tif")
              (PyExc "StorageException" "backend unreachable") eq_refl eq_refl)
    as (Hout & _ & Huntouched).
  split; [exact Hout | exact Huntouched].
Defined.

(** X3. [enviar_arquivo] raises in four cases only, each with its own
    exception unchanged: the existence test raises, the local file is
    missing ([FileNotFoundError]), opening it fails, or the upload fails.
    A failure of the public-URL resolution is never what it raises. *)
Theorem upload_raises_only_before_or_during_upload (client : Client)
    (caminho_local caminho_bucket : string) (e : exn) :
  outcome (enviar_arquivo client caminho_local caminho_bucket) = Raise e <->
  fs_exists client caminho_local = Raise e
  \/ (fs_exists client caminho_local = Ok false /\
      e = FileNotFoundError ("Arquivo " +:+ caminho_local +:+ " não encontrado"))
  \/ (fs_exists client caminho_local = Ok true /\
      fs_open client caminho_local "rb" = Some e)
  \/ (fs_exists client caminho_local = Ok true /\
      fs_open client caminho_local "rb" = None /\
      storage_upload client (locator caminho_bucket).1 (locator caminho_bucket).2
        caminho_local upload_options = Raise e).
Proof.
  unfold enviar_arquivo. parse_locator caminho_bucket.
  destruct (fs_exists client caminho_local) as [[|]|e0]; cbn.
  - destruct (fs_open client caminho_local "rb") as [e0|]; cbn.
    + split.
      * intros [= ->]. right. right. left. split; reflexivity.
      * intros [[=]|[[[=] _]|[[_ [= ->]]|(_ & [=] & _)]]]. reflexivity.
    + destruct (storage_upload client _ _ caminho_local upload_options) as [resp|e0]; cbn.
      * destruct (storage_get_public_url client _ _); cbn;
          (split; [intros [=] | intros [[=]|[[[=] _]|[[_ [=]]|(_ & _ & [=])]]]]).
      * split.
        -- intros [= ->]. right. right. right. repeat split; reflexivity.
        -- intros [[=]|[[[=] _]|[[_ [=]]|(_ & _ & [= ->])]]]. reflexivity.
  - split.
    + intros [= <-]. right. left. split; reflexivity.
    + intros [[=]|[[_ ->]|[[[=] _]|([=] & _)]]]. reflexivity.
  - split.
    + intros [= ->]. left. reflexivity.
    + intros [[= ->]|[[[=] _]|[[[=] _]|([=] & _)]]]. reflexivity.
Qed.

Lemma upload_raises_only_before_or_during_upload_witness :
  outcome (enviar_arquivo Scenario.offline "/data/ortho.tif" "ortomosaicos/p1/t1.tif")
  = Raise (PyExc "StorageException" "backend unreachable").
Proof.
  apply (upload_raises_only_before_or_during_upload Scenario.offline "/data/ortho.tif"
           "ortomosaicos/p1/t1.tif").
  right. right. right. repeat split; reflexivity.
Defined.

(** Membership in a list of effects that evaluation has laid out. *)
Ltac absent :=
  let H := fresh "Hin" in
  intros H; repeat (destruct H as [H|H]; [discriminate H|]); destruct H.

Ltac present := repeat (first [left; reflexivity | right]).

(** X4. [enviar_arquivo] only reads the local file and only uploads: it
    opens the file at most once, in mode ["rb"], never writes it, and asks
    the backend for at most one upload followed, when that upload went
    through and only then, by one public-URL resolution; it never
    downloads, lists or removes. *)
Theorem upload_reads_and_uploads_only (client : Client)
    (caminho_local caminho_bucket : string) :
  let r := enviar_arquivo client caminho_local caminho_bucket in
  let sent := StorageUpload (locator caminho_bucket).1 (locator caminho_bucket).2
                caminho_local upload_options in
  let resolved :=
    StorageGetPublicUrl (locator caminho_bucket).1 (locator caminho_bucket).2 in
  (List.filter touches_destination (trace r) = [] \/
   List.filter touches_destination (trace r) = [OpenFile caminho_local "rb"]) /\
  (network_calls (trace r) = [] \/ network_calls (trace r) = [sent] \/
   network_calls (trace r) = [sent; resolved]) /\
  (In resolved (trace r) <->
   fs_exists client caminho_local = Ok true /\ fs_open client caminho_local "rb" = None /\
   exists response,
     storage_upload client (locator caminho_bucket).1 (locator caminho_bucket).2
       caminho_local upload_options = Ok response).
Proof.
  cbv zeta. unfold enviar_arquivo. parse_locator caminho_bucket.
  destruct (fs_exists client caminho_local) as [[|]|e1]; cbn;
    [|split; [left; reflexivity|]; split; [left; reflexivity|];
      split; [absent | intros ([=] & _)]..].
  - destruct (fs_open client caminho_local "rb") as [e0|]; cbn.
    + split; [right; reflexivity|]. split; [left; reflexivity|].
      split; [absent | intros (_ & [=] & _)].
    + destruct (storage_upload client _ _ caminho_local upload_options) as [resp|e0]; cbn.
      * destruct (storage_get_public_url client _ _); cbn;
          (split; [right; reflexivity|]); (split; [right; right; reflexivity|]);
          (split; [intros _; eauto | intros _; present]).
      * split; [right; reflexivity|]. split; [right; left; reflexivity|].
        split; [absent | intros (_ & _ & ? & [=])].
Qed.

Lemma upload_reads_and_uploads_only_witness :
  In (StorageGetPublicUrl "ortomosaicos" "p1/t1.tif")
     (trace (enviar_arquivo Scenario.online "/data/ortho.tif" "ortomosaicos/p1/t1.tif")).
Proof.
  apply (upload_reads_and_uploads_only Scenario.online "/data/ortho.tif"
           "ortomosaicos/p1/t1.tif").
  split; [reflexivity|]. split; [reflexivity|]. exists (Some 200%Z). reflexivity.
Defined.

(** X5. [excluir_arquivo] asks the backend for exactly one removal, of
    exactly one key, and its result is the backend's: [True] when the
    removal went through, the backend's exception otherwise; it never
    returns [False]. *)
Theorem delete_mirrors_the_backend (client : Client) (caminho_bucket : string) :
  let r := excluir_arquivo client caminho_bucket in
  let bucket := (locator caminho_bucket).1 in
  let key := (locator caminho_bucket).2 in
  network_calls (trace r) = [StorageRemove bucket [key]] /\
  outcome r = match storage_remove client bucket [key] with
              | None => Ok true
              | Some e => Raise e
              end /\
  outcome r <> Ok false.
Proof.
  cbv zeta. unfold excluir_arquivo. parse_locator caminho_bucket.
  step; repeat split; (reflexivity || discriminate).
Qed.

(** X6. Joining a bucket name without ["/"] and any key with a ["/"] gives
    a locator that the gateway reads back as that bucket and that key, also
    when the key holds further ["/"]: the removal and the download then
    address exactly that object. *)
Theorem joined_locator_reads_back (client : Client) (bucket key caminho_local : string) :
  ~ has_char "/" bucket ->
  locator (bucket +:+ "/" +:+ key) = (bucket, key) /\
  addressed (trace (excluir_arquivo client (bucket +:+ "/" +:+ key))) = [(bucket, key)] /\
  (fs_mkdir_parent client caminho_local = None ->
   addressed (trace (baixar_arquivo client (bucket +:+ "/" +:+ key) caminho_local))
   = [(bucket, key)]).
Proof.
  intros Hbucket.
  assert (locator (bucket +:+ "/" +:+ key) = (bucket, key)) as Hread.
  { pose proof (locator_split (bucket +:+ "/" +:+ key)) as Hcode.
    assert (split_on_first_slash (bucket +:+ "/" +:+ key) bucket key) as Hspec
      by (split; [exact Hbucket | left; reflexivity]).
    destruct (split_on_first_slash_unique _ _ _ _ _ Hcode Hspec) as [Hb Hk].
    destruct (locator (bucket +:+ "/" +:+ key)); simpl in *. congruence. }
  split; [exact Hread|]. split.
  - rewrite (proj2 (excluir_arquivo_addressed client _)), Hread. reflexivity.
  - intros Hmkdir.
    rewrite (proj2 (baixar_arquivo_addressed client _ caminho_local)), Hmkdir, Hread.
    reflexivity.
Qed.

Lemma joined_locator_reads_back_witness :
  locator ("ortomosaicos" +:+ "/" +:+ "p1/t1/ortho.tif") = ("ortomosaicos", "p1/t1/ortho.tif").
Proof.
  apply (joined_locator_reads_back Scenario.online "ortomosaicos" "p1/t1/ortho.tif"
           "/tmp/t1.tif").
  vm_compute. intros H. repeat (destruct H as [H|H]; [discriminate H|]). exact H.
Defined.

(** X7. Each of the four storage operations logs an error line exactly
    when it raises: a call that returns logs none, and a call that raises
    logs one, as its last effect, naming its argument and the text of the
    exception it then raises. *)
Theorem storage_errors_are_logged_once (client : Client)
    (caminho_bucket caminho_local bucket : string) :
  let logged {A} (r : M A) (line : exn -> string) : Prop :=
    match outcome r with
    | Ok _ => error_lines (trace r) = []
    | Raise e => error_lines (trace r) = [Log ERROR (line e)] /\
                 last (trace r) = Some (Log ERROR (line e))
    end in
  logged (baixar_arquivo client caminho_bucket caminho_local)
    (fun e => "Erro ao baixar arquivo " +:+ caminho_bucket +:+ ": " +:+ str_exn e) /\
  logged (enviar_arquivo client caminho_local caminho_bucket)
    (fun e => "Erro ao enviar arquivo " +:+ caminho_local +:+ " para " +:+ caminho_bucket
              +:+ ": " +:+ str_exn e) /\
  logged (listar_arquivos client bucket)
    (fun e => "Erro ao listar arquivos no bucket " +:+ bucket +:+ ": " +:+ str_exn e) /\
  logged (excluir_arquivo client caminho_bucket)
    (fun e => "Erro ao excluir arquivo " +:+ caminho_bucket +:+ ": " +:+ str_exn e).
Proof.
  cbv zeta. split; [|split; [|split]].
  - unfold baixar_arquivo. parse_locator caminho_bucket.
    destruct (fs_mkdir_parent client caminho_local); cbn; [split; reflexivity|].
    destruct (storage_download client _ _); cbn; [|split; reflexivity].
    destruct (fs_open client caminho_local "wb"); cbn; [split; reflexivity|].
    destruct (fs_write client caminho_local _); cbn; [split; reflexivity | reflexivity].
  - unfold enviar_arquivo. parse_locator caminho_bucket.
    destruct (fs_exists client caminho_local) as [[|]|]; cbn; [|split; reflexivity..].
    destruct (fs_open client caminho_local "rb"); cbn; [split; reflexivity|].
    destruct (storage_upload client _ _ caminho_local upload_options); cbn;
      [|split; reflexivity].
    destruct (storage_get_public_url client _ _); cbn; reflexivity.
  - unfold listar_arquivos. cbn.
    destruct (storage_list client bucket); cbn; [reflexivity | split; reflexivity].
  - unfold excluir_arquivo. parse_locator caminho_bucket.
    destruct (storage_remove client _ _); cbn; [split; reflexivity | reflexivity].
Qed.

(** X8. [listar_arquivos] does not cut its argument: the whole string,
    with any ["/"] in it, is the bucket it lists, in one call, and what it
    returns or raises is what the backend returned or raised. *)
Theorem list_takes_the_bucket_whole (client : Client) (bucket : string) :
  network_calls (trace (listar_arquivos client bucket)) = [StorageList bucket] /\
  outcome (listar_arquivos client bucket) = storage_list client bucket.
Proof.
  unfold listar_arquivos. cbn.
  destruct (storage_list client bucket); cbn; split; reflexivity.
Qed.

(** ** Connection: properties *)

Section Connection.

Variable sys : Connect.Sys.

(** The environment [conectar] ends up reading. *)
Let effective : string -> option string :=
  if truthy (Connect.environ sys "SUPABASE_URL")
  then Connect.environ sys else Connect.environ_after_dotenv sys.

Lemma truthy_some (o : option string) :
  truthy o = true -> exists s, o = Some s /\ s <> "".
Proof.
  destruct o as [[|c s]|]; simpl; try discriminate.
  intros _. eexists. split; [reflexivity | discriminate].
Qed.

Lemma conectar_cases :
  (truthy (effective "SUPABASE_URL") && truthy (effective "SUPABASE_KEY") = false /\
   (Connect.conectar sys).1
   = Raise (ValueError "Credenciais do Supabase não configuradas no arquivo .env") /\
   (Connect.conectar sys).2
   = if truthy (Connect.environ sys "SUPABASE_URL") then [] else [Connect.LoadDotenv])
  \/
  (exists url key,
     effective "SUPABASE_URL" = Some url /\ effective "SUPABASE_KEY" = Some key /\
     url <> "" /\ key <> "" /\
     (Connect.conectar sys).1 = Connect.create_client sys url key 300 /\
     (Connect.conectar sys).2
     = (if truthy (Connect.environ sys "SUPABASE_URL") then [] else [Connect.LoadDotenv])
       ++ [Connect.CreateClient url key 300;
           match Connect.create_client sys url key 300 with
           | Ok _ =>
               Connect.Logged INFO
                 "Conexão com Supabase estabelecida com sucesso (timeout de storage aumentado)"
           | Raise e =>
               Connect.Logged ERROR ("Erro ao conectar com Supabase: " +:+ str_exn e)
           end]).
Proof.
  subst effective. unfold Connect.conectar. cbv zeta.
  destruct (truthy (Connect.environ sys "SUPABASE_URL")) eqn:Hentry; cbn [negb].
  - destruct (truthy (Connect.environ sys "SUPABASE_URL")) eqn:Hurl; [|discriminate].
    destruct (truthy (Connect.environ sys "SUPABASE_KEY")) eqn:Hkey; cbn.
    + right.
      destruct (truthy_some _ Hurl) as (url & Eu & Nu).
      destruct (truthy_some _ Hkey) as (key & Ek & Nk).
      exists url, key. rewrite Eu, Ek. cbn.
      destruct (Connect.create_client sys url key 300); cbn; auto 10.
    + left. auto.
  - destruct (truthy (Connect.environ_after_dotenv sys "SUPABASE_URL")) eqn:Hurl;
      destruct (truthy (Connect.environ_after_dotenv sys "SUPABASE_KEY")) eqn:Hkey; cbn;
      try (left; auto; fail).
    right.
    destruct (truthy_some _ Hurl) as (url & Eu & Nu).
    destruct (truthy_some _ Hkey) as (key & Ek & Nk).
    exists url, key. rewrite Eu, Ek. cbn.
    destruct (Connect.create_client sys url key 300); cbn; auto 10.
Qed.

End Connection.

(** X9. [conectar] fails fast: when, in the environment it ends up
    reading, [SUPABASE_URL] or [SUPABASE_KEY] is unset or empty, it raises
    [ValueError] without asking the library for a client and without
    logging; and whenever it does ask, the URL and the key are non-empty
    and the storage timeout is 300 seconds. *)
Theorem connect_fails_fast (sys : Connect.Sys) :
  let effective :=
    if truthy (Connect.environ sys "SUPABASE_URL")
    then Connect.environ sys else Connect.environ_after_dotenv sys in
  (truthy (effective "SUPABASE_URL") = false \/ truthy (effective "SUPABASE_KEY") = false ->
   (Connect.conectar sys).1
   = Raise (ValueError "Credenciais do Supabase não configuradas no arquivo .env") /\
   List.filter Connect.is_attempt (Connect.conectar sys).2 = [] /\
   forall l msg, ~ In (Connect.Logged l msg) (Connect.conectar sys).2) /\
  (forall url key timeout,
     In (Connect.CreateClient url key timeout) (Connect.conectar sys).2 ->
     effective "SUPABASE_URL" = Some url /\ effective "SUPABASE_KEY" = Some key /\
     url <> "" /\ key <> "" /\ timeout = 300%Z).
Proof.
  cbv zeta.
  destruct (conectar_cases sys)
    as [(Hmiss & Hout & Htr)|(url & key & Eu & Ek & Nu & Nk & Hout & Htr)].
  - split.
    + intros _. split; [exact Hout|]. rewrite Htr.
      destruct (truthy (Connect.environ sys "SUPABASE_URL")); cbn;
        (split; [reflexivity | intros l msg; absent]).
    + intros u k tmo. rewrite Htr.
      destruct (truthy (Connect.environ sys "SUPABASE_URL")); cbn; absent.
  - split.
    + rewrite Eu, Ek. simpl.
      destruct url; [congruence|]. destruct key; [congruence|].
      simpl. intros [[=]|[=]].
    + intros u k tmo. rewrite Htr. intros Hin.
      apply in_app_iff in Hin as [Hin|Hin].
      * destruct (truthy (Connect.environ sys "SUPABASE_URL")); cbn in Hin;
          [destruct Hin | destruct Hin as [[=]|[]]].
      * destruct Hin as [[= <- <- <-]|[Hin|[]]]; [auto 10|].
        destruct (Connect.create_client sys url key 300); discriminate Hin.
Qed.

Lemma connect_fails_fast_witness :
  (Connect.conectar Scenario.key_only_in_dotenv).1
  = Raise (ValueError "Credenciais do Supabase não configuradas no arquivo .env") /\
  (let effective :=
     if truthy (Connect.environ Scenario.all_in_dotenv "SUPABASE_URL")
     then Connect.environ Scenario.all_in_dotenv
     else Connect.environ_after_dotenv Scenario.all_in_dotenv in
   effective "SUPABASE_KEY" = Some "service-key").
Proof.
  split.
  - apply (connect_fails_fast Scenario.key_only_in_dotenv). right. reflexivity.
  - apply (proj2 (connect_fails_fast Scenario.all_in_dotenv)
             "https://db.test" "service-key" 300%Z).
    right. left. reflexivity.
Defined.

(** X10. [conectar] reads the [.env] file exactly when [SUPABASE_URL] is
    unset or empty on entry, and then first of all. A missing
    [SUPABASE_KEY] beside a set [SUPABASE_URL] does not make it read the
    file: it raises at once, with no effect, whatever the file holds. *)
Theorem dotenv_read_only_without_url (sys : Connect.Sys) :
  (In Connect.LoadDotenv (Connect.conectar sys).2
   <-> truthy (Connect.environ sys "SUPABASE_URL") = false) /\
  (truthy (Connect.environ sys "SUPABASE_URL") = false ->
   head (Connect.conectar sys).2 = Some Connect.LoadDotenv) /\
  (truthy (Connect.environ sys "SUPABASE_URL") = true ->
   truthy (Connect.environ sys "SUPABASE_KEY") = false ->
   Connect.conectar sys
   = (Raise (ValueError "Credenciais do Supabase não configuradas no arquivo .env"), [])).
Proof.
  split; [|split].
  - destruct (conectar_cases sys)
      as [(_ & _ & Htr)|(url & key & _ & _ & _ & _ & _ & Htr)]; rewrite Htr;
      destruct (truthy (Connect.environ sys "SUPABASE_URL")); cbn; split;
      try discriminate; try (intros _; reflexivity); try (intros _; left; reflexivity).
    + intros [].
    + intros [[=]|[Hin|[]]].
      destruct (Connect.create_client sys url key 300); discriminate Hin.
  - intros Hentry.
    destruct (conectar_cases sys)
      as [(_ & _ & Htr)|(url & key & _ & _ & _ & _ & _ & Htr)]; rewrite Htr, Hentry;
      reflexivity.
  - intros Hurl Hkey. unfold Connect.conectar. cbv zeta.
    rewrite Hurl. cbn [negb]. rewrite Hurl, Hkey. reflexivity.
Qed.

Lemma dotenv_read_only_without_url_witness :
  Connect.conectar Scenario.key_only_in_dotenv
  = (Raise (ValueError "Credenciais do Supabase não configuradas no arquivo .env"), []) /\
  In Connect.LoadDotenv (Connect.conectar Scenario.all_in_dotenv).2.
Proof.
  split.
  - apply (dotenv_read_only_without_url Scenario.key_only_in_dotenv); reflexivity.
  - apply (proj1 (dotenv_read_only_without_url Scenario.all_in_dotenv)). reflexivity.
Defined.

(** X11. With a non-empty URL and key in the environment it reads,
    [conectar] asks the library once, with that URL, that key and a storage
    timeout of 300 seconds, and ends as the library does: it returns the
    client created, or logs the library's exception and raises that same
    exception. *)
Theorem connect_mirrors_library (sys : Connect.Sys) (url key : string) :
  let effective :=
    if truthy (Connect.environ sys "SUPABASE_URL")
    then Connect.environ sys else Connect.environ_after_dotenv sys in
  effective "SUPABASE_URL" = Some url -> url <> "" ->
  effective "SUPABASE_KEY" = Some key -> key <> "" ->
  (Connect.conectar sys).1 = Connect.create_client sys url key 300 /\
  List.filter Connect.is_attempt (Connect.conectar sys).2
  = [Connect.CreateClient url key 300] /\
  last (Connect.conectar sys).2
  = Some match Connect.create_client sys url key 300 with
         | Ok _ =>
             Connect.Logged INFO
               "Conexão com Supabase estabelecida com sucesso (timeout de storage aumentado)"
         | Raise e => Connect.Logged ERROR ("Erro ao conectar com Supabase: " +:+ str_exn e)
         end.
Proof.
  cbv zeta. intros Eu Nu Ek Nk.
  destruct (conectar_cases sys)
    as [(Hmiss & _)|(url' & key' & Eu' & Ek' & _ & _ & Hout & Htr)].
  - rewrite Eu, Ek in Hmiss. destruct url; [congruence|]. destruct key; [congruence|].
    discriminate Hmiss.
  - assert (url' = url) as -> by congruence. assert (key' = key) as -> by congruence.
    split; [exact Hout|]. rewrite Htr.
    destruct (truthy (Connect.environ sys "SUPABASE_URL"));
      destruct (Connect.create_client sys url key 300); cbn; split; reflexivity.
Qed.

Lemma connect_mirrors_library_witness :
  (Connect.conectar Scenario.library_fails).1
  = Raise (PyExc "SupabaseException" "invalid url") /\
  last (Connect.conectar Scenario.library_fails).2
  = Some (Connect.Logged ERROR "Erro ao conectar com Supabase: invalid url").
Proof.
  destruct (connect_mirrors_library Scenario.library_fails "https://db.test" "service-key")
    as (Hout & _ & Hlast); [reflexivity | discriminate | reflexivity | discriminate |].
  split; [exact Hout | exact Hlast].
Defined.

(** ** Request gateway: further properties *)

(** X12. [iniciar_processamento] acknowledges exactly the requests it has
    scheduled: it returns only when both ids are non-empty and [add_task]
    went through, the acknowledgement then echoes the ids with status
    ["iniciado"] and the one effect is that task; every other request leaves
    as an [HTTPException] of status 500, logged. The handler itself never
    runs the processing and never posts a webhook. *)
Theorem request_acknowledged_iff_scheduled (env : Env) (request : ProcessamentoRequest) :
  let r := iniciar_processamento env request in
  let scheduled := AddTask (id_projeto request) (id_talhao request) in
  match outcome r with
  | Ok ack =>
      ack = {| resp_id_projeto := id_projeto request;
               resp_id_talhao := id_talhao request;
               resp_status := "iniciado";
               resp_mensagem := Some "Processamento iniciado com sucesso" |} /\
      trace r = [scheduled] /\
      id_projeto request <> "" /\ id_talhao request <> "" /\
      add_task env (id_projeto request) (id_talhao request) = None
  | Raise e =>
      exists detail,
        e = HTTPException 500 detail /\
        last (trace r) = Some (Log ERROR ("Erro ao iniciar processamento: " +:+ detail)) /\
        (id_projeto request = "" \/ id_talhao request = "" \/
         exists cause, add_task env (id_projeto request) (id_talhao request) = Some cause)
  end /\
  Forall (fun ev => is_log ev = true \/ ev = scheduled) (trace r).
Proof.
  cbv zeta. unfold iniciar_processamento.
  assert (forall tr : list event,
            Forall (fun ev => is_log ev = true \/
                              ev = AddTask (id_projeto request) (id_talhao request)) tr ->
            forall ev, is_log ev = true \/
                       ev = AddTask (id_projeto request) (id_talhao request) ->
                       Forall (fun ev => is_log ev = true \/
                                         ev = AddTask (id_projeto request)
                                                (id_talhao request)) (ev :: tr))
    as Hcons by (intros; constructor; assumption).
  destruct (id_projeto request) as [|c p] eqn:Hp; cbn.
  { split; [|apply Hcons; [constructor | left; reflexivity]].
    eexists. split; [reflexivity|]. split; [reflexivity | left; reflexivity]. }
  destruct (id_talhao request) as [|d q] eqn:Ht; cbn.
  { split; [|apply Hcons; [constructor | left; reflexivity]].
    eexists. split; [reflexivity|]. split; [reflexivity | right; left; reflexivity]. }
  destruct (add_task env (String c p) (String d q)) as [cause|]; cbn.
  - split.
    + eexists. split; [reflexivity|]. split; [reflexivity|].
      right. right. exists cause. reflexivity.
    + apply Hcons; [|right; reflexivity].
      apply Hcons; [constructor | left; reflexivity].
  - split; [repeat split; discriminate|].
    apply Hcons; [constructor | right; reflexivity].
Qed.

(** X13. When [add_task] itself raises, the request is answered with
    status 500 and the text of that exception as detail, after the one
    attempt to schedule. *)
Theorem scheduling_failure_is_answered_500 (env : Env) (request : ProcessamentoRequest)
    (cause : exn) :
  id_projeto request <> "" -> id_talhao request <> "" ->
  add_task env (id_projeto request) (id_talhao request) = Some cause ->
  outcome (iniciar_processamento env request) = Raise (HTTPException 500 (str_exn cause)) /\
  trace (iniciar_processamento env request)
  = [AddTask (id_projeto request) (id_talhao request);
     Log ERROR ("Erro ao iniciar processamento: " +:+ str_exn cause)].
Proof.
  intros Hp Ht Hadd. unfold iniciar_processamento.
  destruct (id_projeto request) as [|c p]; [congruence|].
  destruct (id_talhao request) as [|d q]; [congruence|].
  cbn. rewrite Hadd. cbn. split; reflexivity.
Qed.

Lemma scheduling_failure_is_answered_500_witness :
  outcome (iniciar_processamento Scenario.queue_full {| id_projeto := "p1"; id_talhao := "t1" |})
  = Raise (HTTPException 500 (str_exn (PyExc "RuntimeError" "queue full"))).
Proof.
  apply (scheduling_failure_is_answered_500 Scenario.queue_full
           {| id_projeto := "p1"; id_talhao := "t1" |} (PyExc "RuntimeError" "queue full"));
    [discriminate | discriminate | reflexivity].
Defined.

(** ** Orchestrator: further properties *)

Lemma processing_calls_app a b :
  processing_calls (a ++ b) = processing_calls a ++ processing_calls b.
Proof. apply List.filter_app. Qed.

Lemma no_processing tr :
  (forall a b, ~ In (CallProcessar a b) tr) -> processing_calls tr = [].
Proof.
  induction tr as [|ev tr IH]; intros Hquiet; [reflexivity|].
  unfold processing_calls in *. simpl.
  destruct ev; simpl; try (apply IH; intros a b Hin; apply (Hquiet a b); right; exact Hin).
  exfalso. eapply Hquiet. left. reflexivity.
Qed.

Section Processing.

Variable env : Env.
Variables id_projeto id_talhao : string.

Let run : M unit := executar_processamento_background env id_projeto id_talhao.

(** Where the processing sits in a run that reaches it. *)
Lemma processing_position :
  credentials_present env = true ->
  exists before after,
    trace run = before ++ CallProcessar id_projeto id_talhao :: after /\
    notified before = [("iniciado", None)] /\
    posted before = (if truthy (getenv env "WEBHOOK_URL")
                     then [webhook_payload id_projeto id_talhao "iniciado" None] else []) /\
    processing_calls before = [] /\
    processing_calls after = [].
Proof.
  intros Hcred. subst run. unfold executar_processamento_background.
  destruct (enviar_webhook_returns env id_projeto id_talhao "iniciado" None)
    as (t1 & E1 & N1 & P1 & Q1).
  assert (forall x y z w : list (gmap string string),
            x = [] -> y = [] -> z = [] -> x ++ y ++ w ++ z = w)
    as Hposted by (intros x y z w -> -> ->; cbn; apply app_nil_r).
  destruct (processar_ortomosaico env id_projeto id_talhao) as [v|e] eqn:Hproc.
  - rewrite (run_returns _ _ _ _ t1 v Hcred E1 Hproc). cbn [trace].
    match goal with
    | |- context [?o ++ [?a; ?n] ++ t1 ++ [?l; ?c; ?z]] =>
        exists (o ++ [a; n] ++ t1 ++ [l]), [z]
    end.
    split; [rewrite <- !app_assoc; reflexivity|].
    split; [rewrite !notified_app, N1; reflexivity|].
    split; [rewrite !posted_app, P1; apply Hposted; reflexivity|].
    split; [rewrite !processing_calls_app, (no_processing _ Q1); reflexivity | reflexivity].
  - destruct (enviar_webhook_returns env id_projeto id_talhao "erro" (Some (str_exn e)))
      as (t2 & E2 & N2 & P2 & Q2).
    rewrite (run_raises _ _ _ _ t1 e _ t2 Hcred E1 Hproc E2). cbn [trace].
    match goal with
    | |- context [(?o ++ [?a; ?n] ++ t1 ++ [?l; ?c]) ++ ?rest] =>
        exists (o ++ [a; n] ++ t1 ++ [l]), rest
    end.
    split; [rewrite <- !app_assoc; reflexivity|].
    split; [rewrite !notified_app, N1; reflexivity|].
    split; [rewrite !posted_app, P1; apply Hposted; reflexivity|].
    split; [rewrite !processing_calls_app, (no_processing _ Q1); reflexivity|].
    rewrite !processing_calls_app, (no_processing _ Q2). reflexivity.
Qed.

Lemma processing_calls_of_run :
  processing_calls (trace run)
  = if credentials_present env then [CallProcessar id_projeto id_talhao] else [].
Proof.
  destruct (credentials_present env) eqn:Hcred.
  - destruct (processing_position Hcred) as (before & after & -> & _ & _ & Hb & Ha).
    change (CallProcessar id_projeto id_talhao :: after)
      with ([CallProcessar id_projeto id_talhao] ++ after).
    rewrite !processing_calls_app, Hb, Ha. reflexivity.
  - subst run. unfold executar_processamento_background.
    destruct (enviar_webhook_returns env id_projeto id_talhao "erro"
                (Some "Credenciais do Supabase não configuradas"))
      as (t & E & _ & _ & Q).
    rewrite (run_unconfigured _ _ _ _ _ t Hcred E). cbn [trace].
    rewrite !processing_calls_app, (no_processing _ Q). reflexivity.
Qed.

End Processing.

(** X14. A run calls [processar_ortomosaico] exactly once when both
    credentials are present and never otherwise (there is no retry), with
    the ids it was given, and only after the start has been handed to the
    notifier and, with a webhook URL, posted. *)
Theorem processing_runs_once_after_start (env : Env) (id_projeto id_talhao : string) :
  let run := executar_processamento_background env id_projeto id_talhao in
  processing_calls (trace run)
  = (if credentials_present env then [CallProcessar id_projeto id_talhao] else []) /\
  (credentials_present env = true ->
   exists before after,
     trace run = before ++ CallProcessar id_projeto id_talhao :: after /\
     notified before = [("iniciado", None)] /\
     posted before = (if truthy (getenv env "WEBHOOK_URL")
                      then [webhook_payload id_projeto id_talhao "iniciado" None]
                      else [])).
Proof.
  cbv zeta. split; [apply processing_calls_of_run|].
  intros Hcred.
  destruct (processing_position env id_projeto id_talhao Hcred)
    as (before & after & Htr & Hn & Hp & _).
  exists before, after. auto.
Qed.

Lemma processing_runs_once_after_start_witness :
  exists before after,
    trace (executar_processamento_background Sample.endpoint_down "p1" "t1")
    = before ++ CallProcessar "p1" "t1" :: after /\
    notified before = [("iniciado", None)].
Proof.
  destruct (proj2 (processing_runs_once_after_start Sample.endpoint_down "p1" "t1") eq_refl)
    as (before & after & Htr & Hn & _).
  exists before, after. split; [exact Htr | exact Hn].
Defined.

(** X15. What the webhook endpoint answers changes nothing but log lines:
    with any other endpoint behaviour the run ends the same way, hands the
    same notifications to the notifier, posts the same bodies (none is sent
    again) and calls the processing the same number of times. *)
Theorem run_independent_of_endpoint (env : Env)
    (post : string -> gmap string string -> gmap string string -> result Response)
    (id_projeto id_talhao : string) :
  let r := executar_processamento_background env id_projeto id_talhao in
  let r' := executar_processamento_background (with_requests_post env post)
              id_projeto id_talhao in
  outcome r' = outcome r /\
  notified (trace r') = notified (trace r) /\
  posted (trace r') = posted (trace r) /\
  processing_calls (trace r') = processing_calls (trace r).
Proof.
  cbv zeta.
  pose proof (processing_calls_of_run env id_projeto id_talhao) as Hc.
  pose proof (processing_calls_of_run (with_requests_post env post) id_projeto id_talhao)
    as Hc'.
  pose proof (program_cases env id_projeto id_talhao) as H.
  pose proof (program_cases (with_requests_post env post) id_projeto id_talhao) as H'.
  change (credentials_present (with_requests_post env post))
    with (credentials_present env) in *.
  change (getenv (with_requests_post env post)) with (getenv env) in *.
  change (processar_ortomosaico (with_requests_post env post))
    with (processar_ortomosaico env) in *.
  rewrite Hc, Hc'. clear Hc Hc'.
  destruct H as [(C & O & N & P & _)|[(C & v & V & O & N & P & _)|(C & e & E & O & N & P)]];
    destruct H'
      as [(C' & O' & N' & P' & _)|[(C' & v' & V' & O' & N' & P' & _)|
                                   (C' & e' & E' & O' & N' & P')]];
    try congruence;
    rewrite O, O', N, N', P, P'; try (repeat split; reflexivity).
  assert (e' = e) as -> by congruence. repeat split; reflexivity.
Qed.

Section Bodies.

Variables (id_projeto id_talhao status : string) (mensagem : option string).

Lemma payload_ids :
  webhook_payload id_projeto id_talhao status mensagem !! "id_projeto" = Some id_projeto /\
  webhook_payload id_projeto id_talhao status mensagem !! "id_talhao" = Some id_talhao.
Proof.
  unfold webhook_payload.
  destruct (truthy mensagem); split;
    rewrite ?(lookup_insert_ne _ "mensagem") by done;
    rewrite ?(lookup_insert_ne _ "status") by done;
    rewrite ?(lookup_insert_ne _ "id_talhao" "id_projeto") by done;
    apply lookup_insert_eq.
Qed.

Lemma payload_dom :
  dom (webhook_payload id_projeto id_talhao status mensagem)
  = {["id_projeto"; "id_talhao"; "status"]}
    ∪ (if truthy mensagem then {["mensagem"]} else ∅ : gset string).
Proof.
  unfold webhook_payload.
  destruct (truthy mensagem); rewrite !dom_insert_L, dom_empty_L; set_solver.
Qed.

End Bodies.

(** X16. A missing credential is reported like any other failure: with a
    webhook URL configured, the run posts exactly one body, of status
    ["erro"], whose ["mensagem"] is the text of the configuration error and
    which carries the ids of the run. *)
Theorem configuration_failure_is_reported (env : Env) (id_projeto id_talhao : string) :
  credentials_present env = false ->
  truthy (getenv env "WEBHOOK_URL") = true ->
  exists json,
    posted (trace (executar_processamento_background env id_projeto id_talhao)) = [json] /\
    json !! "status" = Some "erro" /\
    json !! "mensagem" = Some "Credenciais do Supabase não configuradas" /\
    json !! "id_projeto" = Some id_projeto /\
    json !! "id_talhao" = Some id_talhao.
Proof.
  intros Hcred Hurl.
  destruct (program_cases env id_projeto id_talhao)
    as [(_ & _ & _ & Hp & _)|[(Hc & _)|(Hc & _)]]; [|congruence..].
  rewrite Hurl in Hp. eexists. split; [exact Hp|].
  split; [apply payload_status|]. split; [apply payload_mensagem|]. apply payload_ids.
Qed.

Lemma configuration_failure_is_reported_witness :
  exists json,
    posted (trace (executar_processamento_background Scenario.unconfigured "p1" "t1"))
    = [json] /\
    json !! "mensagem" = Some "Credenciais do Supabase não configuradas".
Proof.
  destruct (configuration_failure_is_reported Scenario.unconfigured "p1" "t1"
              eq_refl eq_refl) as (json & Hposted & _ & Hmsg & _).
  exists json. split; [exact Hposted | exact Hmsg].
Defined.

(** X17. Every body posted identifies what it is about. A body posted by
    [enviar_webhook] goes to the configured [WEBHOOK_URL], holds the two
    ids it was given under ["id_projeto"] and ["id_talhao"], and its keys
    are those two, ["status"], and ["mensagem"] when the message is truthy,
    no other; every body a run posts holds the ids of the run. *)
Theorem posted_bodies_identify_the_run (env : Env) (id_projeto id_talhao : string) :
  (forall status mensagem url json hdrs,
     In (HttpPost url json hdrs)
        (trace (enviar_webhook env id_projeto id_talhao status mensagem)) ->
     getenv env "WEBHOOK_URL" = Some url /\
     json !! "id_projeto" = Some id_projeto /\
     json !! "id_talhao" = Some id_talhao /\
     dom json = {["id_projeto"; "id_talhao"; "status"]}
                ∪ (if truthy mensagem then {["mensagem"]} else ∅ : gset string)) /\
  (forall url json hdrs,
     In (HttpPost url json hdrs)
        (trace (executar_processamento_background env id_projeto id_talhao)) ->
     json !! "id_projeto" = Some id_projeto /\
     json !! "id_talhao" = Some id_talhao).
Proof.
  split.
  - intros status mensagem url json hdrs Hin.
    apply enviar_webhook_posts in Hin as [-> Hurl].
    split; [exact Hurl|].
    destruct (payload_ids id_projeto id_talhao status mensagem) as [Hp Ht].
    split; [exact Hp|]. split; [exact Ht | apply payload_dom].
  - intros url json hdrs Hin. apply in_posted in Hin.
    destruct (program_cases env id_projeto id_talhao)
      as [(_ & _ & _ & Hp & _)|[(_ & v & _ & _ & _ & Hp & _)|(_ & e & _ & _ & _ & Hp)]];
      rewrite Hp in Hin;
      (destruct (truthy (getenv env "WEBHOOK_URL")); [|destruct Hin]);
      repeat (destruct Hin as [<-|Hin]; [apply payload_ids|]); destruct Hin.
Qed.

Lemma posted_bodies_identify_the_run_witness :
  webhook_payload "p1" "t1" "erro" (Some "mosaic not found") !! "id_talhao" = Some "t1".
Proof.
  apply (proj1 (posted_bodies_identify_the_run (Sample.configured (Ok (PyBool true)))
                  "p1" "t1")
           "erro" (Some "mosaic not found") "https://hooks.test/status" _ json_headers).
  left. reflexivity.
Defined.

(** ** Orchestrator: the failure webhook *)

Lemma enviar_webhook_post (env : Env) (id_projeto id_talhao status : string)
    (mensagem : option string) (url : string) :
  getenv env "WEBHOOK_URL" = Some url -> url <> "" ->
  In (HttpPost url (webhook_payload id_projeto id_talhao status mensagem) json_headers)
     (trace (enviar_webhook env id_projeto id_talhao status mensagem)).
Proof.
  intros Hurl Hset. unfold enviar_webhook. rewrite Hurl.
  destruct url as [|c u]; [congruence|]. cbn.
  repeat step; left; reflexivity.
Qed.

(** C3 as stated fails on two runs whose processing raises. Without
    [WEBHOOK_URL] the run raises the processing's exception and posts
    nothing, so no webhook of status ["erro"] goes out. With everything
    configured and an exception whose text is empty, the ["erro"] body goes
    out without any ["mensagem"], so no webhook holds the message [""]. *)
Lemma failure_webhook_counterexample :
  (outcome (executar_processamento_background
              (Scenario.without_webhook (Raise (PyExc "RuntimeError" "mosaic not found")))
              "p1" "t1")
   = Raise (PyExc "RuntimeError" "mosaic not found") /\
   posted (trace (executar_processamento_background
                    (Scenario.without_webhook
                       (Raise (PyExc "RuntimeError" "mosaic not found")))
                    "p1" "t1")) = [] /\
   (emits_failure_webhook
      (trace (executar_processamento_background
                (Scenario.without_webhook (Raise (PyExc "RuntimeError" "mosaic not found")))
                "p1" "t1"))
      "mosaic not found" -> False)) /\
  (outcome (executar_processamento_background
              (Sample.configured (Raise (PyExc "RuntimeError" ""))) "p1" "t1")
   = Raise (PyExc "RuntimeError" "") /\
   map (fun json : gmap string string => (json !! "status", json !! "mensagem"))
     (posted (trace (executar_processamento_background
                       (Sample.configured (Raise (PyExc "RuntimeError" ""))) "p1" "t1")))
   = [(Some "iniciado", None); (Some "erro", None)] /\
   (emits_failure_webhook
      (trace (executar_processamento_background
                (Sample.configured (Raise (PyExc "RuntimeError" ""))) "p1" "t1"))
      "" -> False)).
Proof.
  split.
  - split; [reflexivity|]. split; [reflexivity|].
    intros (json & Hin & _). vm_compute in Hin. exact Hin.
  - split; [reflexivity|]. split; [vm_compute; reflexivity|].
    intros (json & Hin & _ & Hmsg).
    assert (forall body, In body (posted (trace (executar_processamento_background
                                                    (Sample.configured
                                                       (Raise (PyExc "RuntimeError" "")))
                                                    "p1" "t1"))) ->
                         body !! "mensagem" = None) as Hnone.
    { intros body Hbody. vm_compute in Hbody.
      destruct Hbody as [<-|[<-|[]]]; vm_compute; reflexivity. }
    rewrite (Hnone json Hin) in Hmsg. discriminate Hmsg.
Qed.

(** C3, amended. In a run whose processing raises [e] (the credentials
    being present, so that the processing is reached), the orchestrator
    hands the notifier the status ["erro"] with the message [str(e)] and
    then raises [e] itself. With [WEBHOOK_URL] configured the run posts two
    bodies, and the second, posted to that URL, holds ["erro"] under
    ["status"], the ids of the run, and under ["mensagem"] the text
    [str(e)] when that text is not empty, nothing when it is empty; without
    [WEBHOOK_URL] nothing is posted. Against any notifier, when sending the
    ["erro"] webhook raises too, that second exception is logged and the
    run still ends with [e]. *)
Theorem failure_is_reported_and_reraised (env : Env) (id_projeto id_talhao : string)
    (e : exn) :
  credentials_present env = true ->
  processar_ortomosaico env id_projeto id_talhao = Raise e ->
  (let run := executar_processamento_background env id_projeto id_talhao in
   outcome run = Raise e /\
   notified (trace run) = [("iniciado", None); ("erro", Some (str_exn e))] /\
   (if truthy (getenv env "WEBHOOK_URL") then
      exists url started failed,
        getenv env "WEBHOOK_URL" = Some url /\
        posted (trace run) = [started; failed] /\
        In (HttpPost url failed json_headers) (trace run) /\
        started !! "status" = Some "iniciado" /\
        failed !! "status" = Some "erro" /\
        failed !! "mensagem"
        = (if truthy_str (str_exn e) then Some (str_exn e) else None) /\
        failed !! "id_projeto" = Some id_projeto /\
        failed !! "id_talhao" = Some id_talhao
    else posted (trace run) = []) /\
   (truthy (getenv env "WEBHOOK_URL") = true -> str_exn e <> "" ->
    emits_failure_webhook (trace run) (str_exn e))) /\
  (forall notifier : string -> string -> string -> option string -> M unit,
     outcome (notifier id_projeto id_talhao "iniciado" None) = Ok tt ->
     let run := executar_processamento_background_with env notifier id_projeto id_talhao in
     let sending := notifier id_projeto id_talhao "erro" (Some (str_exn e)) in
     outcome run = Raise e /\
     exists before,
       trace run
       = before
         ++ [Log ERROR ("Erro no processamento background: " +:+ str_exn e);
             Notify id_projeto id_talhao "erro" (Some (str_exn e))]
         ++ trace sending
         ++ match outcome sending with
            | Ok _ => []
            | Raise webhook_error =>
                [Log ERROR ("Erro ao enviar webhook de erro: " +:+ str_exn webhook_error)]
            end).
Proof.
  intros Hcred Hraises. split.
  - cbv zeta.
    destruct (program_cases env id_projeto id_talhao)
      as [(Hc & _)|[(_ & v & Hv & _)|(_ & e' & He' & Hout & Hn & Hp)]]; [congruence..|].
    assert (e' = e) as -> by congruence.
    split; [exact Hout|]. split; [exact Hn|].
    assert (truthy (getenv env "WEBHOOK_URL") = true ->
            exists url started failed,
              getenv env "WEBHOOK_URL" = Some url /\
              posted (trace (executar_processamento_background env id_projeto id_talhao))
              = [started; failed] /\
              In (HttpPost url failed json_headers)
                 (trace (executar_processamento_background env id_projeto id_talhao)) /\
              started !! "status" = Some "iniciado" /\
              failed !! "status" = Some "erro" /\
              failed !! "mensagem"
              = (if truthy_str (str_exn e) then Some (str_exn e) else None) /\
              failed !! "id_projeto" = Some id_projeto /\
              failed !! "id_talhao" = Some id_talhao) as Hbody.
    { intros Hset. rewrite Hset in Hp.
      destruct (truthy_some _ Hset) as (url & Hurl & Hne).
      exists url, (webhook_payload id_projeto id_talhao "iniciado" None),
        (webhook_payload id_projeto id_talhao "erro" (Some (str_exn e))).
      split; [exact Hurl|]. split; [exact Hp|]. split.
      - pose proof (enviar_webhook_post env id_projeto id_talhao "erro"
                      (Some (str_exn e)) url Hurl Hne) as Hsent.
        unfold executar_processamento_background.
        destruct (enviar_webhook_returns env id_projeto id_talhao "iniciado" None)
          as (t1 & E1 & _).
        destruct (enviar_webhook_returns env id_projeto id_talhao "erro" (Some (str_exn e)))
          as (t2 & E2 & _).
        rewrite E2 in Hsent. cbn [trace] in Hsent.
        rewrite (run_raises _ _ _ _ t1 e _ t2 Hcred E1 Hraises E2). cbn [trace].
        apply in_app_iff. right. apply in_app_iff. right.
        apply in_app_iff. left. exact Hsent.
      - split; [apply payload_status|]. split; [apply payload_status|].
        split; [apply (payload_mensagem id_projeto id_talhao "erro" (Some (str_exn e)))|].
        apply payload_ids. }
    split.
    + destruct (truthy (getenv env "WEBHOOK_URL")) eqn:Hset; [apply Hbody; reflexivity|].
      exact Hp.
    + intros Hset Htext.
      destruct (Hbody Hset) as (url & started & failed & _ & Hposted & _ & _ & Hs & Hm & _).
      exists failed. split; [rewrite Hposted; right; left; reflexivity|].
      split; [exact Hs|]. rewrite Hm.
      destruct (str_exn e); [congruence | reflexivity].
  - intros notifier Hstart run sending. subst run sending.
    destruct (notifier id_projeto id_talhao "iniciado" None) as [r1 t1] eqn:E1.
    cbn in Hstart. subst r1.
    destruct (notifier id_projeto id_talhao "erro" (Some (str_exn e))) as [r2 t2] eqn:E2.
    rewrite (run_raises env notifier id_projeto id_talhao t1 e r2 t2 Hcred E1 Hraises E2).
    cbn [outcome trace]. split; [reflexivity|]. eexists. reflexivity.
Qed.

Lemma failure_is_reported_and_reraised_witness :
  emits_failure_webhook
    (trace (executar_processamento_background
              (Sample.configured (Raise (PyExc "RuntimeError" "mosaic not found")))
              "p1" "t1"))
    "mosaic not found" /\
  outcome (executar_processamento_background_with
             (Sample.configured (Raise (PyExc "RuntimeError" "mosaic not found")))
             Sample.broken_notifier "p1" "t1")
  = Raise (PyExc "RuntimeError" "mosaic not found").
Proof.
  destruct (failure_is_reported_and_reraised
              (Sample.configured (Raise (PyExc "RuntimeError" "mosaic not found")))
              "p1" "t1" (PyExc "RuntimeError" "mosaic not found") eq_refl eq_refl)
    as [(_ & _ & _ & Hemits) Hany].
  split.
  - apply Hemits; [reflexivity | discriminate].
  - exact (proj1 (Hany Sample.broken_notifier eq_refl)).
Defined.
